(** * Autonomous drone navigation simulation

    A shallow embedding of [drone_simulation.py]: the geometry predicates,
    the drone's motion integrator and trail recorder, the trail filter
    ([Drone.clip_path_to_obstacles]), the delivery sequencer and the tick
    of [UrbanEnvironment], followed by the properties of the specification
    that were checked against them.

    Rendering ([draw], fonts, colours, the pygame window and clock) holds
    no simulation state and is left out. *)

From stdpp Require Import list.
From Stdlib Require Import ZArith Floats Lia.

Set Warnings "-inexact-float".

(** ** Numbers

    Python [float] is IEEE 754 binary64, which is the kernel's [float].
    The source mixes [int] and [float] (pixel coordinates, waypoints and
    the speed are [int] literals, positions become [float] after the first
    move).  Every such [int] is embedded as the [float] of the same value;
    on the pixel range of the simulation (|v| < 2^26) Python's integer
    [-], [**2] and [+] and the binary64 operations give the same value, and
    Python compares an [int] with a [float] by value.  [v**2] is written
    [v * v].

    Limits of this reading of [**2].  On a [float], Python computes
    [v**2] with the C library's [pow]: it raises [OverflowError] when the
    square of a finite [v] overflows (|v| above about 1.34e154), where
    [v * v] is an infinity, and its last bit may differ from the correctly
    rounded [v * v].  No coordinate the simulation handles comes near the
    overflow; a statement below that would depend on it says so in a
    hypothesis ([squares]), and none asserts a value that depends on the
    last bit of a square that is not exact. *)

Definition sq (v : float) : float := (v * v)%float.

(** ** Exceptions

    The two Python exceptions the simulation core could raise: a float
    division by zero and a list index out of range. *)

Inductive pyerr : Set := ZeroDivisionError | IndexError.

Inductive result (A : Type) : Type :=
| Ok (a : A)
| Raise (e : pyerr).
Arguments Ok {A} a.
Arguments Raise {A} e.

#[export] Instance result_ret : MRet result := fun A a => Ok a.
#[export] Instance result_bind : MBind result := fun A B k c =>
  match c with
  | Ok a => k a
  | Raise e => Raise e
  end.

(** [a / b] on Python floats raises when [b == 0.0] (either sign of zero). *)
Definition py_div (a b : float) : result float :=
  if (b =? 0)%float then Raise ZeroDivisionError else Ok (a / b)%float.

(** [l[i]] for a non-negative index. *)
Definition py_index {A : Type} (l : list A) (i : nat) : result A :=
  match l !! i with
  | Some a => Ok a
  | None => Raise IndexError
  end.

(** What a Python call hands back: [None] for a bare [return] or for
    falling off the end of the body, or a boolean. *)
Inductive pyvalue : Set := PyNone | PyBool (b : bool).

Definition point : Type := float * float.

(** ** pygame.Rect

    [pygame.Rect(x, y, width, height)] stores four C integers;
    [left = x], [top = y], [right = x + width], [bottom = y + height]. *)
Module Rect.

Record t : Set := Build { x : Z; y : Z; w : Z; h : Z }.

Definition left (r : t) : Z := x r.
Definition top (r : t) : Z := y r.
Definition right (r : t) : Z := (x r + w r)%Z.
Definition bottom (r : t) : Z := (y r + h r)%Z.

(** pygame converts a coordinate argument to a C [int]; a Python [float]
    is cast, that is truncated toward zero.  An integral value is left as
    it is.  (The cast is defined on the range of a C [int] only, which
    holds every pixel coordinate; beyond it, where the C cast gives the
    least [int], the truncated value is kept as it is, and an infinity or
    a NaN is sent to 0.) *)
Definition to_int (v : float) : Z :=
  match Prim2SF v with
  | S754_finite s m e =>
      let a := Z.shiftl (Z.pos m) e in
      if s then (- a)%Z else a
  | _ => 0%Z
  end.

(** [Rect.collidepoint(x, y)].  pygame: "A point along the right or bottom
    edge is not considered to be inside the rectangle."  Its test is
    [x >= r.x && x < r.x + r.w && y >= r.y && y < r.y + r.h].  (The sums
    are those of [Z]; a C [int] would wrap on a rectangle that reaches
    2^31, far from any building.) *)
Definition collidepoint (r : t) (px py : float) : bool :=
  let xi := to_int px in
  let yi := to_int py in
  (x r <=? xi)%Z && (xi <? x r + w r)%Z && (y r <=? yi)%Z && (yi <? y r + h r)%Z.

End Rect.

(** ** Building: a rectangle obstacle (its colour and drawn height are
    rendering data). *)
Module Building.

Record t : Set := Build { rect : Rect.t }.

Definition new (x y width height : Z) : t :=
  {| rect := Rect.Build x y width height |}.

End Building.

(** ** NoFlyZone: a circular restricted zone.

    [contains_point] is total here: the [OverflowError] Python raises from
    a square that overflows (see Numbers) has no counterpart. *)
Module NoFlyZone.

Record t : Set := Build { center : float * float; radius : float }.

Definition contains_point (z : t) (x y : float) : bool :=
  let distance := sqrt (sq (x - fst (center z)) + sq (y - snd (center z))) in
  (distance <=? radius z)%float.

End NoFlyZone.

(** The test both [clip_path_to_obstacles] and [handle_click] make on a
    point: a [for] loop over the buildings and one over the zones, each
    leaving at the first hit. *)
Definition in_obstacle (buildings : list Building.t) (no_fly_zones : list NoFlyZone.t)
    (x y : float) : bool :=
  existsb (fun b => Rect.collidepoint (Building.rect b) x y) buildings
  || existsb (fun z => NoFlyZone.contains_point z x y) no_fly_zones.

(** ** Drone *)
Module Drone.

Record t : Type := Build {
  x : float;
  y : float;
  target_x : float;
  target_y : float;
  speed : float;
  size : Z;
  path : list point;
  clipped_path : list point;
  is_moving : bool;
  battery : float;
  carrying_package : bool
}.

(** [Drone.__init__] *)
Definition new (start_pos : point) : t :=
  {| x := fst start_pos; y := snd start_pos;
     target_x := fst start_pos; target_y := snd start_pos;
     speed := 3; size := 8;
     path := []; clipped_path := [];
     is_moving := false; battery := 100; carrying_package := true |}.

(** [Drone.set_target] *)
Definition set_target (d : t) (tx ty : float) : t :=
  {| x := x d; y := y d;
     target_x := tx; target_y := ty;
     speed := speed d; size := size d;
     path := path d; clipped_path := clipped_path d;
     is_moving := true; battery := battery d;
     carrying_package := carrying_package d |}.

(** The distance [update] computes from the drone to its target. *)
Definition distance (d : t) : float :=
  let dx := (target_x d - x d)%float in
  let dy := (target_y d - y d)%float in
  sqrt (sq dx + sq dy).

(** [self.path.append(p)] followed by the bound: [pop(0)] once the length
    is over 100. *)
Definition record (trail : list point) (p : point) : list point :=
  let trail' := trail ++ [p] in
  if (100 <? length trail')%nat then tail trail' else trail'.

(** The branch of [update] taken when [distance > self.speed]. *)
Definition advance (d : t) : result t :=
  let dx := (target_x d - x d)%float in
  let dy := (target_y d - y d)%float in
  ux ← py_div dx (distance d);
  let x' := (x d + ux * speed d)%float in
  uy ← py_div dy (distance d);
  let y' := (y d + uy * speed d)%float in
  Ok {| x := x'; y := y';
        target_x := target_x d; target_y := target_y d;
        speed := speed d; size := size d;
        path := record (path d) (x', y'); clipped_path := clipped_path d;
        is_moving := is_moving d; battery := (battery d - 0.01)%float;
        carrying_package := carrying_package d |}.

(** The [else] branch of [update]: the target is reached. *)
Definition arrive (d : t) : t :=
  {| x := target_x d; y := target_y d;
     target_x := target_x d; target_y := target_y d;
     speed := speed d; size := size d;
     path := path d; clipped_path := clipped_path d;
     is_moving := false; battery := battery d;
     carrying_package := if carrying_package d then false else carrying_package d |}.

(** [Drone.update] *)
Definition update (d : t) : result t :=
  if negb (is_moving d) then Ok d
  else if (speed d <? distance d)%float then advance d
  else Ok (arrive d).

(** One turn of the [for point in self.path] loop of
    [clip_path_to_obstacles], on the pair [(self.clipped_path, safe_path)]. *)
Definition clip_point (buildings : list Building.t) (no_fly_zones : list NoFlyZone.t)
    (acc : list point * list point) (p : point) : list point * list point :=
  let '(clipped, safe_path) := acc in
  let '(px, py) := p in
  if negb (in_obstacle buildings no_fly_zones px py) then (clipped, safe_path ++ [(px, py)])
  else match safe_path with
       | [] => (clipped, safe_path)
       | _ :: _ => (clipped ++ safe_path, [])
       end.

Definition set_clipped_path (d : t) (c : list point) : t :=
  {| x := x d; y := y d;
     target_x := target_x d; target_y := target_y d;
     speed := speed d; size := size d;
     path := path d; clipped_path := c;
     is_moving := is_moving d; battery := battery d;
     carrying_package := carrying_package d |}.

(** [Drone.clip_path_to_obstacles] *)
Definition clip_path_to_obstacles (d : t) (buildings : list Building.t)
    (no_fly_zones : list NoFlyZone.t) : t :=
  if (length (path d) <? 2)%nat then d
  else
    let '(clipped, safe_path) :=
      fold_left (clip_point buildings no_fly_zones) (path d) ([], []) in
    set_clipped_path d
      (match safe_path with
       | [] => clipped
       | _ :: _ => clipped ++ safe_path
       end).

(** The [K_c] key: both trails are emptied. *)
Definition clear_path (d : t) : t :=
  {| x := x d; y := y d;
     target_x := target_x d; target_y := target_y d;
     speed := speed d; size := size d;
     path := []; clipped_path := [];
     is_moving := is_moving d; battery := battery d;
     carrying_package := carrying_package d |}.

End Drone.

(** ** NavigationMetrics *)
Module NavigationMetrics.

Record t : Set := Build {
  paths_planned : nat;
  obstacles_avoided : nat;
  paths_clipped : nat;
  total_processing_time : float;
  successful_deliveries : nat
}.

Definition new : t :=
  {| paths_planned := 0; obstacles_avoided := 0; paths_clipped := 0;
     total_processing_time := 0; successful_deliveries := 0 |}.

End NavigationMetrics.

(** ** UrbanEnvironment *)
Module UrbanEnvironment.

Import NavigationMetrics.

Record t : Type := Build {
  buildings : list Building.t;
  no_fly_zones : list NoFlyZone.t;
  delivery_points : list point;
  drone : Drone.t;
  metrics : NavigationMetrics.t;
  current_delivery : nat;
  simulation_time : float;
  is_paused : bool
}.

(** [_generate_no_fly_zones] *)
Definition _generate_no_fly_zones : list NoFlyZone.t :=
  [ NoFlyZone.Build (400, 300)%float 80;
    NoFlyZone.Build (700, 500)%float 60;
    NoFlyZone.Build (900, 200)%float 70 ].

(** [_generate_delivery_points] *)
Definition _generate_delivery_points : list point :=
  [ (100, 100); (1100, 100); (1100, 700); (100, 700); (600, 400) ]%float.

(** [UrbanEnvironment.__init__].  [_generate_buildings] draws fifteen
    rectangles at random; the layout it returns is the argument. *)
Definition new (generated_buildings : list Building.t) : t :=
  {| buildings := generated_buildings;
     no_fly_zones := _generate_no_fly_zones;
     delivery_points := _generate_delivery_points;
     drone := Drone.new (100, 100)%float;
     metrics := NavigationMetrics.new;
     current_delivery := 0;
     simulation_time := 0;
     is_paused := false |}.

Definition set_drone (e : t) (d : Drone.t) : t :=
  {| buildings := buildings e; no_fly_zones := no_fly_zones e;
     delivery_points := delivery_points e; drone := d; metrics := metrics e;
     current_delivery := current_delivery e;
     simulation_time := simulation_time e; is_paused := is_paused e |}.

Definition add_path_planned (m : NavigationMetrics.t) : NavigationMetrics.t :=
  {| paths_planned := paths_planned m + 1;
     obstacles_avoided := obstacles_avoided m;
     paths_clipped := paths_clipped m;
     total_processing_time := total_processing_time m;
     successful_deliveries := successful_deliveries m |}.

(** [handle_click].  Both [return] statements are bare and the body ends
    without one, so the call evaluates to [None] on every path. *)
Definition handle_click (e : t) (pos : point) : t * pyvalue :=
  let '(x, y) := pos in
  if existsb (fun b => Rect.collidepoint (Building.rect b) x y) (buildings e)
  then (e, PyNone)
  else if existsb (fun z => NoFlyZone.contains_point z x y) (no_fly_zones e)
  then (e, PyNone)
  else
    ({| buildings := buildings e; no_fly_zones := no_fly_zones e;
        delivery_points := delivery_points e;
        drone := Drone.set_target (drone e) x y;
        metrics := add_path_planned (metrics e);
        current_delivery := current_delivery e;
        simulation_time := simulation_time e; is_paused := is_paused e |},
     PyNone).

(** [next_delivery] *)
Definition next_delivery (e : t) : result t :=
  let current :=
    if (current_delivery e <? length (delivery_points e) - 1)%nat
    then (current_delivery e + 1)%nat
    else 0%nat in
  target ← py_index (delivery_points e) current;
  let d := Drone.set_target (drone e) (fst target) (snd target) in
  let m := add_path_planned (metrics e) in
  if (current =? 0)%nat then
    Ok {| buildings := buildings e; no_fly_zones := no_fly_zones e;
          delivery_points := delivery_points e;
          drone := {| Drone.x := Drone.x d; Drone.y := Drone.y d;
                      Drone.target_x := Drone.target_x d;
                      Drone.target_y := Drone.target_y d;
                      Drone.speed := Drone.speed d; Drone.size := Drone.size d;
                      Drone.path := Drone.path d;
                      Drone.clipped_path := Drone.clipped_path d;
                      Drone.is_moving := Drone.is_moving d;
                      Drone.battery := Drone.battery d;
                      Drone.carrying_package := true |};
          metrics := {| paths_planned := paths_planned m;
                        obstacles_avoided := obstacles_avoided m;
                        paths_clipped := paths_clipped m;
                        total_processing_time := total_processing_time m;
                        successful_deliveries := successful_deliveries m + 1 |};
          current_delivery := current;
          simulation_time := simulation_time e; is_paused := is_paused e |}
  else
    Ok {| buildings := buildings e; no_fly_zones := no_fly_zones e;
          delivery_points := delivery_points e; drone := d; metrics := m;
          current_delivery := current;
          simulation_time := simulation_time e; is_paused := is_paused e |}.

(** The counters [update] bumps after the trail filter has run, and the
    processing time it adds ([pygame.time.get_ticks] before and after). *)
Definition observe (m : NavigationMetrics.t) (d : Drone.t) (processing_time : float)
    : NavigationMetrics.t :=
  {| paths_planned := paths_planned m;
     obstacles_avoided :=
       if (length (Drone.path d) =? length (Drone.clipped_path d))%nat
       then obstacles_avoided m else obstacles_avoided m + 1;
     paths_clipped :=
       if (0 <? length (Drone.clipped_path d))%nat
       then paths_clipped m + 1 else paths_clipped m;
     total_processing_time := (total_processing_time m + processing_time)%float;
     successful_deliveries := successful_deliveries m |}.

(** The test that ends [update]: "Auto-advance to next delivery when
    reached target". *)
Definition auto_advance (e : t) : result t :=
  if negb (Drone.is_moving (drone e)) && Drone.carrying_package (drone e) then
    current_target ← py_index (delivery_points e) (current_delivery e);
    let distance :=
      sqrt (sq (Drone.x (drone e) - fst current_target)
            + sq (Drone.y (drone e) - snd current_target)) in
    if (distance <? 10)%float then next_delivery e else Ok e
  else Ok e.

(** [UrbanEnvironment.update]: one tick.  [processing_time] is the wall
    clock difference measured around the drone's update. *)
Definition update (e : t) (processing_time : float) : result t :=
  if negb (is_paused e) then
    d ← Drone.update (drone e);
    let d := Drone.clip_path_to_obstacles d (buildings e) (no_fly_zones e) in
    auto_advance
      {| buildings := buildings e; no_fly_zones := no_fly_zones e;
         delivery_points := delivery_points e; drone := d;
         metrics := observe (metrics e) d processing_time;
         current_delivery := current_delivery e;
         simulation_time := (simulation_time e + 1 / 60)%float;
         is_paused := is_paused e |}
  else Ok e.

(** What the main loop of [run] reacts to: the keys, a left click, and the
    tick that closes every frame.  [K_r] runs [__init__] again, with a
    freshly drawn building layout. *)
Inductive event : Type :=
| KeySpace
| KeyR (generated_buildings : list Building.t)
| KeyC
| KeyN
| Click (pos : point)
| Tick (processing_time : float).

Definition step (e : t) (ev : event) : result t :=
  match ev with
  | KeySpace =>
      Ok {| buildings := buildings e; no_fly_zones := no_fly_zones e;
            delivery_points := delivery_points e; drone := drone e;
            metrics := metrics e; current_delivery := current_delivery e;
            simulation_time := simulation_time e;
            is_paused := negb (is_paused e) |}
  | KeyR generated_buildings => Ok (new generated_buildings)
  | KeyC => Ok (set_drone e (Drone.clear_path (drone e)))
  | KeyN => next_delivery e
  | Click pos => Ok (fst (handle_click e pos))
  | Tick processing_time => update e processing_time
  end.

Fixpoint run (e : t) (evs : list event) : result t :=
  match evs with
  | [] => Ok e
  | ev :: evs' => e' ← step e ev; run e' evs'
  end.

End UrbanEnvironment.

(** [n] consecutive calls of [Drone.update]. *)
Fixpoint drone_ticks (n : nat) (d : Drone.t) : result Drone.t :=
  match n with
  | O => Ok d
  | S n' => d' ← Drone.update d; drone_ticks n' d'
  end.

(** [n] consecutive calls of [Drone.update], every one of them taking the
    moving branch ([is_moving] and [distance > speed]). *)
Fixpoint moves_for (n : nat) (d : Drone.t) : bool :=
  match n with
  | O => true
  | S n' =>
      Drone.is_moving d && (Drone.speed d <? Drone.distance d)%float
      && match Drone.update d with
         | Ok d' => moves_for n' d'
         | Raise _ => false
         end
  end.

(** ** Vocabulary of the properties *)

(** A point outside every building and every no-fly zone. *)
Definition safe (buildings : list Building.t) (no_fly_zones : list NoFlyZone.t)
    (p : point) : Prop :=
  in_obstacle buildings no_fly_zones (fst p) (snd p) = false.

#[export] Instance safe_dec buildings no_fly_zones p :
  Decision (safe buildings no_fly_zones p).
Proof. unfold safe. apply _. Defined.

(** What the trail filter leaves in [clipped_path] for a given trail: the
    filter returns at once on a trail of fewer than two points. *)
Definition filtered (buildings : list Building.t) (no_fly_zones : list NoFlyZone.t)
    (trail : list point) : list point :=
  if (length trail <? 2)%nat then [] else filter (safe buildings no_fly_zones) trail.

(** The invariant of the simulation: what holds of every state it
    reaches from [__init__]. *)
Record consistent (e : UrbanEnvironment.t) : Prop := {
  speed_positive :
    (0 <? Drone.speed (UrbanEnvironment.drone e))%float = true;
  trail_bounded :
    length (Drone.path (UrbanEnvironment.drone e)) ≤ 100;
  clipped_filtered :
    Drone.clipped_path (UrbanEnvironment.drone e)
    = filtered (UrbanEnvironment.buildings e) (UrbanEnvironment.no_fly_zones e)
        (Drone.path (UrbanEnvironment.drone e));
  index_in_range :
    UrbanEnvironment.current_delivery e < length (UrbanEnvironment.delivery_points e)
}.

(** The delivery scenario of the specification: waypoints (0,0) and
    (100,0), no obstacle, the drone at the first waypoint with its cargo. *)
Definition delivery_scenario : UrbanEnvironment.t :=
  {| UrbanEnvironment.buildings := [];
     UrbanEnvironment.no_fly_zones := [];
     UrbanEnvironment.delivery_points := [(0, 0); (100, 0)]%float;
     UrbanEnvironment.drone := Drone.new (0, 0)%float;
     UrbanEnvironment.metrics := NavigationMetrics.new;
     UrbanEnvironment.current_delivery := 0;
     UrbanEnvironment.simulation_time := 0;
     UrbanEnvironment.is_paused := false |}.

(** Where the drone of that scenario comes to rest: arrived at waypoint 1
    without cargo, nothing delivered. *)
Definition stalled (e : UrbanEnvironment.t) : Prop :=
  UrbanEnvironment.is_paused e = false /\
  UrbanEnvironment.current_delivery e = 1 /\
  NavigationMetrics.successful_deliveries (UrbanEnvironment.metrics e) = 0 /\
  Drone.is_moving (UrbanEnvironment.drone e) = false /\
  Drone.carrying_package (UrbanEnvironment.drone e) = false /\
  Drone.x (UrbanEnvironment.drone e) = 100%float /\
  Drone.y (UrbanEnvironment.drone e) = 0%float.

(** The state a tick hands to its closing auto-advance test when the drone
    did not move: the counters and the clock of the tick, the trail filter
    run on the drone. *)
Definition observed (e : UrbanEnvironment.t) (processing_time : float)
    : UrbanEnvironment.t :=
  let d := Drone.clip_path_to_obstacles (UrbanEnvironment.drone e)
             (UrbanEnvironment.buildings e) (UrbanEnvironment.no_fly_zones e) in
  {| UrbanEnvironment.buildings := UrbanEnvironment.buildings e;
     UrbanEnvironment.no_fly_zones := UrbanEnvironment.no_fly_zones e;
     UrbanEnvironment.delivery_points := UrbanEnvironment.delivery_points e;
     UrbanEnvironment.drone := d;
     UrbanEnvironment.metrics :=
       UrbanEnvironment.observe (UrbanEnvironment.metrics e) d processing_time;
     UrbanEnvironment.current_delivery := UrbanEnvironment.current_delivery e;
     UrbanEnvironment.simulation_time :=
       (UrbanEnvironment.simulation_time e + 1 / 60)%float;
     UrbanEnvironment.is_paused := UrbanEnvironment.is_paused e |}.

(** The index [next_delivery] moves to. *)
Definition next_index (e : UrbanEnvironment.t) : nat :=
  if (UrbanEnvironment.current_delivery e
      <? length (UrbanEnvironment.delivery_points e) - 1)%nat
  then UrbanEnvironment.current_delivery e + 1 else 0.

(** Binary64 values that are a zero or not a number. *)
Definition zero_or_nan (f : spec_float) : Prop :=
  match f with
  | S754_zero _ | S754_nan => True
  | _ => False
  end.

(** ** Vocabulary of the further properties *)

(** [f] applied to what a call returns. *)
#[export] Instance result_fmap : FMap result := fun A B f c =>
  match c with
  | Ok a => Ok (f a)
  | Raise e => Raise e
  end.

(** A drone with another battery level. *)
Definition with_battery (d : Drone.t) (b : float) : Drone.t :=
  {| Drone.x := Drone.x d; Drone.y := Drone.y d;
     Drone.target_x := Drone.target_x d; Drone.target_y := Drone.target_y d;
     Drone.speed := Drone.speed d; Drone.size := Drone.size d;
     Drone.path := Drone.path d; Drone.clipped_path := Drone.clipped_path d;
     Drone.is_moving := Drone.is_moving d; Drone.battery := b;
     Drone.carrying_package := Drone.carrying_package d |}.

(** A simulation state without what depends on the obstacles: the
    registry itself, the filtered trail and the two counters fed by it. *)
Definition forget_obstacles (e : UrbanEnvironment.t) : UrbanEnvironment.t :=
  {| UrbanEnvironment.buildings := [];
     UrbanEnvironment.no_fly_zones := [];
     UrbanEnvironment.delivery_points := UrbanEnvironment.delivery_points e;
     UrbanEnvironment.drone := Drone.set_clipped_path (UrbanEnvironment.drone e) [];
     UrbanEnvironment.metrics :=
       {| NavigationMetrics.paths_planned :=
            NavigationMetrics.paths_planned (UrbanEnvironment.metrics e);
          NavigationMetrics.obstacles_avoided := 0;
          NavigationMetrics.paths_clipped := 0;
          NavigationMetrics.total_processing_time :=
            NavigationMetrics.total_processing_time (UrbanEnvironment.metrics e);
          NavigationMetrics.successful_deliveries :=
            NavigationMetrics.successful_deliveries (UrbanEnvironment.metrics e) |};
     UrbanEnvironment.current_delivery := UrbanEnvironment.current_delivery e;
     UrbanEnvironment.simulation_time := UrbanEnvironment.simulation_time e;
     UrbanEnvironment.is_paused := UrbanEnvironment.is_paused e |}.

Definition is_click (ev : UrbanEnvironment.event) : bool :=
  match ev with UrbanEnvironment.Click _ => true | _ => false end.

Definition is_key_n (ev : UrbanEnvironment.event) : bool :=
  match ev with UrbanEnvironment.KeyN => true | _ => false end.

Definition is_key_r (ev : UrbanEnvironment.event) : bool :=
  match ev with UrbanEnvironment.KeyR _ => true | _ => false end.

(** The state a tick hands to its closing auto-advance test, [d] being
    the drone after its update: the trail filter run on [d], the counters
    and the clock of the tick. *)
Definition after_drone_update (e : UrbanEnvironment.t) (d : Drone.t)
    (processing_time : float) : UrbanEnvironment.t :=
  let d' := Drone.clip_path_to_obstacles d
              (UrbanEnvironment.buildings e) (UrbanEnvironment.no_fly_zones e) in
  {| UrbanEnvironment.buildings := UrbanEnvironment.buildings e;
     UrbanEnvironment.no_fly_zones := UrbanEnvironment.no_fly_zones e;
     UrbanEnvironment.delivery_points := UrbanEnvironment.delivery_points e;
     UrbanEnvironment.drone := d';
     UrbanEnvironment.metrics :=
       UrbanEnvironment.observe (UrbanEnvironment.metrics e) d' processing_time;
     UrbanEnvironment.current_delivery := UrbanEnvironment.current_delivery e;
     UrbanEnvironment.simulation_time :=
       (UrbanEnvironment.simulation_time e + 1 / 60)%float;
     UrbanEnvironment.is_paused := UrbanEnvironment.is_paused e |}.

(** The configuration of [__init__] and the resting place of the drone. *)
Record settled (e : UrbanEnvironment.t) : Prop := {
  speed_three : Drone.speed (UrbanEnvironment.drone e) = 3%float;
  size_eight : Drone.size (UrbanEnvironment.drone e) = 8%Z;
  zones_fixed :
    UrbanEnvironment.no_fly_zones e = UrbanEnvironment._generate_no_fly_zones;
  waypoints_fixed :
    UrbanEnvironment.delivery_points e = UrbanEnvironment._generate_delivery_points;
  idle_on_target :
    Drone.is_moving (UrbanEnvironment.drone e) = false ->
    (Drone.x (UrbanEnvironment.drone e), Drone.y (UrbanEnvironment.drone e))
    = (Drone.target_x (UrbanEnvironment.drone e),
       Drone.target_y (UrbanEnvironment.drone e))
}.

(** A simulation nobody pressed N in. *)
Record unattended (e : UrbanEnvironment.t) : Prop := {
  five_waypoints : length (UrbanEnvironment.delivery_points e) = 5;
  nothing_delivered :
    NavigationMetrics.successful_deliveries (UrbanEnvironment.metrics e) = 0;
  first_leg : UrbanEnvironment.current_delivery e ≤ 1;
  loaded_at_depot :
    Drone.is_moving (UrbanEnvironment.drone e) = false ->
    Drone.carrying_package (UrbanEnvironment.drone e) = true ->
    UrbanEnvironment.current_delivery e = 0
}.

(** Each of the four counters of [e'] is the one of [e] plus at most [n]. *)
Definition counters_within (n : nat) (e e' : UrbanEnvironment.t) : Prop :=
  let m := UrbanEnvironment.metrics e in
  let m' := UrbanEnvironment.metrics e' in
  (NavigationMetrics.paths_planned m ≤ NavigationMetrics.paths_planned m'
   ≤ NavigationMetrics.paths_planned m + n) /\
  (NavigationMetrics.obstacles_avoided m ≤ NavigationMetrics.obstacles_avoided m'
   ≤ NavigationMetrics.obstacles_avoided m + n) /\
  (NavigationMetrics.paths_clipped m ≤ NavigationMetrics.paths_clipped m'
   ≤ NavigationMetrics.paths_clipped m + n) /\
  (NavigationMetrics.successful_deliveries m ≤ NavigationMetrics.successful_deliveries m'
   ≤ NavigationMetrics.successful_deliveries m + n).

(** Binary64 values below zero: the negative numbers and minus infinity. *)
Definition negative (f : spec_float) : Prop :=
  match f with
  | S754_infinity true | S754_finite true _ _ => True
  | _ => False
  end.

(** The positions a drone comes to on [n] consecutive updates. *)
Fixpoint visited (n : nat) (d : Drone.t) : list point :=
  match n with
  | O => []
  | S n' =>
      match Drone.update d with
      | Ok d' => (Drone.x d', Drone.y d') :: visited n' d'
      | Raise _ => []
      end
  end.

(** Binary64 zeros, of either sign. *)
Definition signed_zero (f : spec_float) : Prop :=
  match f with
  | S754_zero _ => True
  | _ => False
  end.

(** An integer as the [float] of the same value (exact below 2^53). *)
Definition float_of_Z (z : Z) : float :=
  match z with
  | Z0 => 0%float
  | Zpos _ => of_uint63 (Uint63.of_Z z)
  | Zneg q => (- of_uint63 (Uint63.of_Z (Zpos q)))%float
  end.

(** The specification's words (4.1): "true iff (x,y) lies within
    [rect.left, rect.right] x [rect.top, rect.bottom], inclusive boundary
    treated as inside". *)
Definition spec_rectangleContains (r : Rect.t) (x y : float) : bool :=
  (float_of_Z (Rect.left r) <=? x)%float && (x <=? float_of_Z (Rect.right r))%float
  && (float_of_Z (Rect.top r) <=? y)%float && (y <=? float_of_Z (Rect.bottom r))%float.

(** The specification's words (4.1): "true iff Euclidean distance from
    (x,y) to center <= radius". *)
Definition spec_circleContains (center : float * float) (radius : float)
    (x y : float) : bool :=
  (sqrt (sq (x - fst center) + sq (y - snd center)) <=? radius)%float.

(** The specification's words (4.2): "true iff any rectangle or any
    circle contains the point". *)
Definition spec_isBlocked (buildings : list Building.t)
    (no_fly_zones : list NoFlyZone.t) (x y : float) : bool :=
  existsb (fun b => spec_rectangleContains (Building.rect b) x y) buildings
  || existsb (fun z => spec_circleContains (NoFlyZone.center z) (NoFlyZone.radius z) x y)
       no_fly_zones.

(** The square of [v] does not overflow: it is finite when [v] is.  This
    is where Python's [v**2] returns and does not raise [OverflowError]. *)
Definition squares (v : float) : Prop :=
  is_finite v = true -> is_finite (sq v) = true.

(** ** Facts on binary64 *)
Section Binary64.

Local Open Scope float_scope.

(** A value above a positive one is not zero. *)
Lemma above_positive_nonzero (s v : float) :
  (0 <? s) = true -> (s <? v) = true -> (v =? 0) = false.
Proof.
  rewrite !ltb_spec, eqb_spec.
  change (Prim2SF 0) with (S754_zero false).
  destruct (Prim2SF s) as [ss|ss| |ss ms es], (Prim2SF v) as [sv|sv| |sv mv ev];
    try destruct ss; try destruct sv; cbn; congruence.
Qed.

Lemma sub_diag_zero_or_nan (v : float) : zero_or_nan (Prim2SF (v - v)).
Proof.
  rewrite sub_spec.
  destruct (Prim2SF v) as [sv|sv| |sv mv ev]; try destruct sv; cbn; auto.
  all: unfold SF64sub, SFsub; rewrite Z.sub_diag; exact I.
Qed.

Lemma sq_zero_or_nan (v : float) :
  zero_or_nan (Prim2SF v) -> zero_or_nan (Prim2SF (sq v)).
Proof.
  unfold sq. rewrite mul_spec.
  destruct (Prim2SF v); cbn; tauto.
Qed.

Lemma add_zero_or_nan (u v : float) :
  zero_or_nan (Prim2SF u) -> zero_or_nan (Prim2SF v) ->
  zero_or_nan (Prim2SF (u + v)).
Proof.
  rewrite add_spec.
  destruct (Prim2SF u) as [[]|[]| |], (Prim2SF v) as [[]|[]| |]; cbn; tauto.
Qed.

Lemma sqrt_zero_or_nan (v : float) :
  zero_or_nan (Prim2SF v) -> zero_or_nan (Prim2SF (sqrt v)).
Proof.
  rewrite sqrt_spec.
  destruct (Prim2SF v) as [[]|[]| |]; cbn; tauto.
Qed.

Lemma not_above_zero_or_nan (s v : float) :
  (0 <? s) = true -> zero_or_nan (Prim2SF v) -> (s <? v) = false.
Proof.
  rewrite !ltb_spec.
  change (Prim2SF 0) with (S754_zero false).
  destruct (Prim2SF s) as [ss|ss| |ss ms es], (Prim2SF v) as [sv|sv| |sv mv ev];
    try destruct ss; try destruct sv; cbn; try congruence; try tauto.
Qed.

End Binary64.

(** ** The motion integrator *)
Section Motion.

Import Drone.

(** The distance from a drone to a target that is its own position is a
    zero or not a number, never above a positive speed. *)
Lemma distance_at_target (d : Drone.t) :
  target_x d = x d -> target_y d = y d ->
  zero_or_nan (Prim2SF (distance d)).
Proof.
  intros Hx Hy. unfold distance. rewrite Hx, Hy.
  apply sqrt_zero_or_nan, add_zero_or_nan; apply sq_zero_or_nan, sub_diag_zero_or_nan.
Qed.

(** The moving branch never raises: its divisor is above the speed. *)
Lemma advance_ok (d : Drone.t) :
  (0 <? speed d)%float = true -> (speed d <? distance d)%float = true ->
  exists ux uy,
    py_div (target_x d - x d) (distance d) = Ok ux /\
    py_div (target_y d - y d) (distance d) = Ok uy /\
    advance d =
      Ok {| x := x d + ux * speed d; y := y d + uy * speed d;
            target_x := target_x d; target_y := target_y d;
            speed := speed d; size := size d;
            path := record (path d) ((x d + ux * speed d)%float, (y d + uy * speed d)%float);
            clipped_path := clipped_path d;
            is_moving := is_moving d; battery := battery d - 0.01;
            carrying_package := carrying_package d |}.
Proof.
  intros Hs Hd.
  pose proof (above_positive_nonzero _ _ Hs Hd) as Hz.
  unfold advance, py_div. rewrite Hz. cbn.
  eexists _, _. repeat split.
Qed.

Lemma record_length (trail : list point) (p : point) :
  length trail ≤ 100 -> length (record trail p) = Nat.min 100 (length trail + 1).
Proof.
  intros Hl. unfold record.
  destruct (Nat.ltb_spec 100 (length (trail ++ [p]))) as [H|H];
    rewrite length_app in H; simpl length in H.
  - destruct trail as [|q trail]; simpl length in *; [lia|].
    simpl tail. rewrite length_app. simpl length. lia.
  - rewrite length_app. simpl length. lia.
Qed.

(** The trail after a move: the new point is last, and the oldest point
    is gone exactly when the trail was full. *)
Lemma record_shape (trail : list point) (p : point) :
  length trail ≤ 100 ->
  record trail p = if (length trail <? 100)%nat then trail ++ [p] else tail trail ++ [p].
Proof.
  intros Hl. unfold record. rewrite length_app. simpl length.
  destruct (Nat.ltb_spec 100 (length trail + 1)), (Nat.ltb_spec (length trail) 100);
    try lia; auto.
  destruct trail; simpl length in *; [lia | reflexivity].
Qed.

(** [update] returns, and what it leaves of the trail and the speed. *)
Lemma drone_update_ok (d : Drone.t) :
  (0 <? speed d)%float = true ->
  exists d', update d = Ok d' /\ speed d' = speed d /\
    clipped_path d' = clipped_path d /\
    (path d' = path d \/ path d' = record (path d) (x d', y d')).
Proof.
  intros Hs. unfold update.
  destruct (is_moving d); [|exists d; auto].
  change (negb true) with false. cbv iota.
  destruct (speed d <? distance d)%float eqn:Hd.
  - destruct (advance_ok d Hs Hd) as (ux & uy & _ & _ & ->).
    eexists. split; [reflexivity|]. cbn. auto.
  - eexists. split; [reflexivity|]. cbn. auto.
Qed.

End Motion.

(** ** The trail filter *)
Section TrailFilter.

Variables (buildings : list Building.t) (no_fly_zones : list NoFlyZone.t).

(** The loop keeps [clipped ++ safe_path] equal to the safe points seen so
    far, in their order. *)
Lemma clip_loop (trail clipped safe_path : list point) :
  let '(c, s) := fold_left (Drone.clip_point buildings no_fly_zones) trail
                   (clipped, safe_path) in
  c ++ s = clipped ++ safe_path ++ filter (safe buildings no_fly_zones) trail.
Proof.
  revert clipped safe_path.
  induction trail as [|[px py] trail IH]; intros clipped safe_path.
  - cbn. now rewrite app_nil_r.
  - cbn [fold_left Drone.clip_point]. rewrite filter_cons.
    destruct (decide (safe buildings no_fly_zones (px, py))) as [Hs|Hs];
      unfold safe in Hs; cbn [fst snd] in Hs.
    + rewrite Hs. cbn [negb].
      specialize (IH clipped (safe_path ++ [(px, py)])).
      destruct (fold_left _ trail _) as [c s].
      rewrite IH, <- !app_assoc. reflexivity.
    + apply not_false_is_true in Hs. rewrite Hs. cbn [negb].
      destruct safe_path as [|q safe_path].
      * apply IH.
      * specialize (IH (clipped ++ q :: safe_path) []).
        destruct (fold_left _ trail _) as [c s].
        rewrite IH, <- !app_assoc. reflexivity.
Qed.

(** [clip_path_to_obstacles] touches [clipped_path] only, and only on a
    trail of two points or more, where it stores the safe points. *)
Lemma clip_path_to_obstacles_spec (d : Drone.t) :
  Drone.clip_path_to_obstacles d buildings no_fly_zones
  = Drone.set_clipped_path d
      (if (length (Drone.path d) <? 2)%nat then Drone.clipped_path d
       else filter (safe buildings no_fly_zones) (Drone.path d)).
Proof.
  unfold Drone.clip_path_to_obstacles.
  destruct (length (Drone.path d) <? 2)%nat; [now destruct d|].
  pose proof (clip_loop (Drone.path d) [] []) as H.
  destruct (fold_left _ (Drone.path d) _) as [c s].
  cbn in H. rewrite <- H.
  destruct s; [now rewrite app_nil_r | reflexivity].
Qed.

Lemma filtered_safe (trail : list point) :
  Forall (safe buildings no_fly_zones) (filtered buildings no_fly_zones trail).
Proof.
  unfold filtered. destruct (length trail <? 2)%nat; [constructor|].
  apply Forall_forall. intros p Hp. now apply list_elem_of_filter in Hp.
Qed.

Lemma filtered_sublist (trail : list point) :
  filtered buildings no_fly_zones trail `sublist_of` trail.
Proof.
  unfold filtered. destruct (length trail <? 2)%nat.
  - apply sublist_nil_l.
  - apply sublist_filter.
Qed.

End TrailFilter.

(** ** The simulation keeps its states consistent and never raises *)
Section Consistency.

Import UrbanEnvironment.

Lemma new_consistent (generated_buildings : list Building.t) :
  consistent (new generated_buildings).
Proof. split; cbn; [reflexivity | lia | reflexivity | lia]. Qed.

Lemma next_delivery_ok (e : UrbanEnvironment.t) :
  consistent e ->
  exists e' target,
    next_delivery e = Ok e' /\ consistent e' /\
    delivery_points e !! next_index e = Some target /\
    current_delivery e' = next_index e /\
    Drone.target_x (drone e') = fst target /\
    Drone.target_y (drone e') = snd target /\
    Drone.is_moving (drone e') = true /\
    NavigationMetrics.paths_planned (metrics e')
      = NavigationMetrics.paths_planned (metrics e) + 1.
Proof.
  intros [Hs Hl Hc Hi].
  assert (next_index e < length (delivery_points e)) as Hn.
  { unfold next_index.
    destruct (Nat.ltb_spec (current_delivery e) (length (delivery_points e) - 1)); lia. }
  destruct (lookup_lt_is_Some_2 _ _ Hn) as [target Ht].
  unfold next_delivery, py_index. fold (next_index e). rewrite Ht. cbn [mbind result_bind].
  destruct (next_index e =? 0)%nat;
    eexists _, target; (split; [reflexivity|]);
    (split; [split; cbn; assumption | cbn; repeat split; assumption]).
Qed.

Lemma auto_advance_ok (e : UrbanEnvironment.t) :
  consistent e -> exists e', auto_advance e = Ok e' /\ consistent e'.
Proof.
  intros He. unfold auto_advance.
  destruct (negb (Drone.is_moving (drone e)) && Drone.carrying_package (drone e));
    [|eauto].
  destruct (lookup_lt_is_Some_2 _ _ (index_in_range e He)) as [target Ht].
  unfold py_index. rewrite Ht. cbn [mbind result_bind].
  match goal with |- context [if ?c then _ else _] => destruct c end; [|eauto].
  destruct (next_delivery_ok e He) as (e' & t & -> & He' & _). eauto.
Qed.

Lemma env_update_ok (e : UrbanEnvironment.t) (processing_time : float) :
  consistent e -> exists e', update e processing_time = Ok e' /\ consistent e'.
Proof.
  intros He. unfold update.
  destruct (is_paused e); cbn [negb]; [eauto|].
  destruct He as [Hs Hl Hc Hi].
  destruct (drone_update_ok (drone e) Hs) as (d & -> & Hsd & Hcd & Hpd).
  cbn [mbind result_bind].
  apply auto_advance_ok.
  rewrite clip_path_to_obstacles_spec.
  split; cbn -[Nat.ltb]; try assumption.
  - congruence.
  - destruct Hpd as [-> | ->]; [assumption|].
    rewrite record_length by assumption. lia.
  - rewrite Hcd, Hc. unfold filtered at 2.
    destruct (Nat.ltb_spec (length (Drone.path d)) 2) as [H2|H2]; [|reflexivity].
    unfold filtered.
    destruct Hpd as [Hp | Hp]; rewrite Hp in H2.
    + apply Nat.ltb_lt in H2. now rewrite H2.
    + rewrite record_length in H2 by assumption.
      assert (length (Drone.path (drone e)) < 2) as H by lia.
      apply Nat.ltb_lt in H. now rewrite H.
Qed.

Lemma step_ok (e : UrbanEnvironment.t) (ev : event) :
  consistent e -> exists e', step e ev = Ok e' /\ consistent e'.
Proof.
  intros He. destruct ev as [|generated_buildings| | |[px py]|processing_time]; cbn [step].
  - eexists. split; [reflexivity|]. destruct He. split; assumption.
  - eexists. split; [reflexivity|]. apply new_consistent.
  - eexists. split; [reflexivity|]. destruct He. split; cbn; try assumption; [lia | reflexivity].
  - destruct (next_delivery_ok e He) as (e' & t & -> & He' & _). eauto.
  - eexists. split; [reflexivity|]. unfold handle_click.
    repeat match goal with |- context [if ?c then _ else _] => destruct c end;
      cbn [fst]; try assumption.
    destruct He. split; assumption.
  - now apply env_update_ok.
Qed.

Lemma run_ok (evs : list event) (e : UrbanEnvironment.t) :
  consistent e -> exists e', run e evs = Ok e' /\ consistent e'.
Proof.
  revert e. induction evs as [|ev evs IH]; intros e He; cbn [run].
  - eauto.
  - destruct (step_ok e ev He) as (e1 & -> & He1). cbn [mbind result_bind].
    now apply IH.
Qed.

End Consistency.

(** ** Properties of the specification *)

Import UrbanEnvironment.

(** A safe point is in no building, by [collidepoint], and in no
    no-fly zone, by [contains_point]. *)
Lemma safe_clear (buildings : list Building.t) (no_fly_zones : list NoFlyZone.t)
    (p : point) :
  safe buildings no_fly_zones p ->
  (forall b, b ∈ buildings ->
     Rect.collidepoint (Building.rect b) (fst p) (snd p) = false) /\
  (forall z, z ∈ no_fly_zones -> NoFlyZone.contains_point z (fst p) (snd p) = false).
Proof.
  unfold safe, in_obstacle. intros H.
  apply orb_false_elim in H as [Hb Hz]. split.
  - intros b Hin.
    destruct (Rect.collidepoint (Building.rect b) p.1 p.2) eqn:Hc; [|reflexivity].
    assert (existsb (fun b => Rect.collidepoint (Building.rect b) p.1 p.2) buildings
            = true) as Ht.
    { apply existsb_exists. exists b. split; [now apply list_elem_of_In | assumption]. }
    congruence.
  - intros z Hin.
    destruct (NoFlyZone.contains_point z p.1 p.2) eqn:Hc; [|reflexivity].
    assert (existsb (fun z => NoFlyZone.contains_point z p.1 p.2) no_fly_zones
            = true) as Ht.
    { apply existsb_exists. exists z. split; [now apply list_elem_of_In | assumption]. }
    congruence.
Qed.

(** C1, as the code has it.  The trail filter, whenever it runs (a trail
    of two points or more), stores exactly the points of the trail that
    the code's own tests leave outside every obstacle, in their order:
    each stored point fails [collidepoint] for every building (the right
    and bottom edges of a rectangle count as outside) and
    [contains_point] for every no-fly zone.  In every state of the
    simulation, after any sequence of ticks and other events from the
    start, every point of the filtered trail is outside every obstacle in
    that sense, the filtered trail is a subsequence of the trail, and it
    is no longer than the trail. *)
Theorem filtered_trail_invariant :
  (forall (d : Drone.t) buildings no_fly_zones,
     let d' := Drone.clip_path_to_obstacles d buildings no_fly_zones in
     Drone.path d' = Drone.path d /\
     if (length (Drone.path d) <? 2)%nat
     then Drone.clipped_path d' = Drone.clipped_path d
     else Drone.clipped_path d' = filter (safe buildings no_fly_zones) (Drone.path d) /\
          Forall (fun p =>
                    (forall b, b ∈ buildings ->
                       Rect.collidepoint (Building.rect b) (fst p) (snd p) = false) /\
                    (forall z, z ∈ no_fly_zones ->
                       NoFlyZone.contains_point z (fst p) (snd p) = false))
            (Drone.clipped_path d') /\
          Drone.clipped_path d' `sublist_of` Drone.path d' /\
          length (Drone.clipped_path d') ≤ length (Drone.path d')) /\
  (forall generated_buildings (evs : list event),
     exists e, run (new generated_buildings) evs = Ok e /\
       Forall (fun p =>
                 (forall b, b ∈ buildings e ->
                    Rect.collidepoint (Building.rect b) (fst p) (snd p) = false) /\
                 (forall z, z ∈ no_fly_zones e ->
                    NoFlyZone.contains_point z (fst p) (snd p) = false))
         (Drone.clipped_path (drone e)) /\
       Drone.clipped_path (drone e) `sublist_of` Drone.path (drone e) /\
       length (Drone.clipped_path (drone e)) ≤ length (Drone.path (drone e))).
Proof.
  split.
  - intros d bs zs d'. subst d'. rewrite clip_path_to_obstacles_spec.
    split; [reflexivity|]. cbn -[Nat.ltb].
    destruct (length (Drone.path d) <? 2)%nat eqn:Hl; [reflexivity|].
    pose proof (filtered_safe bs zs (Drone.path d)) as Hs.
    pose proof (filtered_sublist bs zs (Drone.path d)) as Hsub.
    unfold filtered in Hs, Hsub. rewrite Hl in Hs, Hsub.
    repeat split; try assumption.
    + eapply Forall_impl; [exact Hs | apply safe_clear].
    + now apply sublist_length.
  - intros bs evs.
    destruct (run_ok evs (new bs) (new_consistent bs)) as (e & Hrun & He).
    exists e. split; [assumption|].
    rewrite (clipped_filtered e He).
    repeat split.
    + eapply Forall_impl; [apply filtered_safe | apply safe_clear].
    + apply filtered_sublist.
    + apply sublist_length, filtered_sublist.
Qed.

(** C1, the claim refuted.  With the building of origin (50,50), width
    and height 80, the drone of [__init__] passes (130,100) on its way
    east.  The point is on the right edge of the rectangle: blocked for
    the specification, whose rectangles are closed, and kept in the
    filtered trail by the code. *)
Lemma filtered_trail_keeps_edge_point :
  exists e,
    run (new [Building.new 50 50 80 80]) (replicate 12 (Tick 0)) = Ok e /\
    Drone.clipped_path (drone e) = [(130, 100); (133, 100)]%float /\
    spec_isBlocked (buildings e) (no_fly_zones e) 130 100 = true /\
    in_obstacle (buildings e) (no_fly_zones e) 130 100 = false.
Proof.
  eexists. split; [vm_compute; reflexivity|].
  repeat split; vm_compute; reflexivity.
Qed.

(** A drone's trail after a move. *)
Lemma advance_path (d d' : Drone.t) :
  Drone.advance d = Ok d' ->
  Drone.path d' = Drone.record (Drone.path d) (Drone.x d', Drone.y d').
Proof.
  unfold Drone.advance.
  destruct (py_div (Drone.target_x d - Drone.x d) (Drone.distance d));
    cbn [mbind result_bind]; [|done].
  destruct (py_div (Drone.target_y d - Drone.y d) (Drone.distance d));
    cbn [mbind result_bind]; [|done].
  intros [= <-]. reflexivity.
Qed.

Lemma moves_for_length (n : nat) (d : Drone.t) :
  length (Drone.path d) ≤ 100 -> moves_for n d = true ->
  exists d', drone_ticks n d = Ok d' /\
    length (Drone.path d') = Nat.min 100 (length (Drone.path d) + n).
Proof.
  revert d. induction n as [|n IH]; intros d Hl Hm.
  - exists d. split; [reflexivity|]. lia.
  - cbn [moves_for] in Hm.
    apply andb_prop in Hm as [Hm Hn]. apply andb_prop in Hm as [Hmov Hd].
    cbn [drone_ticks]. unfold Drone.update in Hn |- *.
    rewrite Hmov, Hd in Hn |- *. cbn [negb] in Hn |- *.
    destruct (Drone.advance d) as [d1|] eqn:Ha; [|discriminate].
    cbn [mbind result_bind].
    pose proof (advance_path d d1 Ha) as Hp.
    assert (length (Drone.path d1) = Nat.min 100 (length (Drone.path d) + 1)) as Hl1.
    { rewrite Hp. now apply record_length. }
    destruct (IH d1) as (d' & Hrun & Hlen); [lia | assumption|].
    exists d'. split; [assumption|]. lia.
Qed.

(** C2.  The trail never holds more than 100 points, in any state the
    simulation reaches; a moving tick appends the new position and, once
    the trail is full, drops the oldest point; and after 150 consecutive
    moving ticks the trail holds exactly 100 points. *)
Theorem trail_length_at_most_100 :
  (forall generated_buildings (evs : list event),
     exists e, run (new generated_buildings) evs = Ok e /\
       length (Drone.path (drone e)) ≤ 100) /\
  (forall d : Drone.t,
     length (Drone.path d) ≤ 100 ->
     (0 <? Drone.speed d)%float = true ->
     Drone.is_moving d = true ->
     (Drone.speed d <? Drone.distance d)%float = true ->
     exists d', Drone.update d = Ok d' /\
       Drone.path d' =
         if (length (Drone.path d) <? 100)%nat
         then Drone.path d ++ [(Drone.x d', Drone.y d')]
         else tail (Drone.path d) ++ [(Drone.x d', Drone.y d')]) /\
  (forall d : Drone.t,
     length (Drone.path d) ≤ 100 -> moves_for 150 d = true ->
     exists d', drone_ticks 150 d = Ok d' /\ length (Drone.path d') = 100).
Proof.
  split; [|split].
  - intros bs evs.
    destruct (run_ok evs (new bs) (new_consistent bs)) as (e & Hrun & He).
    exists e. split; [assumption | apply (trail_bounded e He)].
  - intros d Hl Hs Hmov Hd.
    unfold Drone.update. rewrite Hmov, Hd. cbn [negb].
    destruct (advance_ok d Hs Hd) as (ux & uy & _ & _ & Ha).
    eexists. split; [exact Ha|].
    rewrite (advance_path _ _ Ha). now apply record_shape.
  - intros d Hl Hm.
    destruct (moves_for_length 150 d Hl Hm) as (d' & Hrun & Hlen).
    exists d'. split; [assumption|]. lia.
Qed.

Lemma trail_length_at_most_100_witness :
  let d := Drone.set_target (Drone.new (100, 100)%float) 1100 100 in
  moves_for 150 d = true /\
  exists d', drone_ticks 150 d = Ok d' /\ length (Drone.path d') = 100.
Proof.
  split.
  - vm_compute. reflexivity.
  - apply (proj2 (proj2 trail_length_at_most_100)).
    + cbn. lia.
    + vm_compute. reflexivity.
Defined.

Lemma run_app (evs1 evs2 : list event) (e : UrbanEnvironment.t) :
  run e (evs1 ++ evs2) = (e' ← run e evs1; run e' evs2).
Proof.
  revert e. induction evs1 as [|ev evs1 IH]; intros e; cbn [run app].
  - reflexivity.
  - destruct (step e ev); cbn [mbind result_bind]; [apply IH | reflexivity].
Qed.

(** The part of the auto-advance rule that holds: a tick on an idle drone
    that carries cargo within 10 units of the current waypoint calls
    [next_delivery], once. *)
Lemma auto_advance_fires (e : UrbanEnvironment.t) (processing_time : float)
    (target : point) :
  is_paused e = false ->
  Drone.is_moving (drone e) = false ->
  Drone.carrying_package (drone e) = true ->
  delivery_points e !! current_delivery e = Some target ->
  (sqrt (sq (Drone.x (drone e) - fst target) + sq (Drone.y (drone e) - snd target)) <? 10)%float
    = true ->
  update e processing_time = next_delivery (observed e processing_time).
Proof.
  intros Hp Hm Hc Ht Hd.
  unfold update, Drone.update. rewrite Hm. cbn [negb mbind result_bind].
  fold (observed e processing_time). rewrite Hp. cbn [negb].
  assert (drone (observed e processing_time)
          = Drone.set_clipped_path (drone e)
              (Drone.clipped_path (drone (observed e processing_time)))) as Ho.
  { unfold observed. cbn [drone]. now rewrite clip_path_to_obstacles_spec. }
  unfold auto_advance, py_index. rewrite Ho.
  cbn [Drone.is_moving Drone.carrying_package Drone.x Drone.y Drone.set_clipped_path].
  rewrite Hm, Hc. cbn [negb andb].
  change (delivery_points (observed e processing_time)) with (delivery_points e).
  change (current_delivery (observed e processing_time)) with (current_delivery e).
  rewrite Ht. cbn [mbind result_bind]. rewrite Hd. reflexivity.
Qed.

Lemma stalled_tick (e : UrbanEnvironment.t) (processing_time : float) :
  stalled e -> exists e', update e processing_time = Ok e' /\ stalled e'.
Proof.
  intros (Hp & Hi & Hn & Hm & Hc & Hx & Hy).
  unfold update, Drone.update. rewrite Hp, Hm. cbn [negb mbind result_bind].
  unfold auto_advance. rewrite clip_path_to_obstacles_spec.
  cbn -[Nat.ltb]. rewrite Hm, Hc. cbn -[Nat.ltb].
  eexists. split; [reflexivity|].
  repeat split; assumption.
Qed.

Lemma stalled_run (pts : list float) (e : UrbanEnvironment.t) :
  stalled e -> exists e', run e (map Tick pts) = Ok e' /\ stalled e'.
Proof.
  revert e. induction pts as [|pt pts IH]; intros e He; cbn [map run step].
  - eauto.
  - destruct (stalled_tick e pt He) as (e1 & -> & He1).
    cbn [mbind result_bind]. now apply IH.
Qed.

(** C3, on the code.  In the delivery scenario the first tick sends the
    drone to waypoint 1; the tick on which it arrives clears the cargo
    flag before the auto-advance test reads it, so the test fails then and
    on every later tick: the index stays 1, no delivery is counted and the
    cargo flag stays false. *)
Theorem delivery_scenario_stalls (pts : list float) :
  exists e,
    run delivery_scenario (replicate 35 (Tick 0) ++ map Tick pts) = Ok e /\
    current_delivery e = 1 /\
    NavigationMetrics.successful_deliveries (metrics e) = 0 /\
    Drone.carrying_package (drone e) = false /\
    Drone.is_moving (drone e) = false /\
    (Drone.x (drone e), Drone.y (drone e)) = (100, 0)%float.
Proof.
  rewrite run_app.
  destruct (run delivery_scenario (replicate 35 (Tick 0))) as [e35|] eqn:H35;
    [|vm_compute in H35; discriminate].
  assert (stalled e35) as He.
  { vm_compute in H35. injection H35 as <-. repeat split. }
  cbn [mbind result_bind].
  destruct (stalled_run pts e35 He) as (e & Hrun & _ & Hi & Hn & Hm & Hc & Hx & Hy).
  exists e. rewrite Hx, Hy. auto 10.
Qed.

(** How [Rect.to_int] reads coordinates: integers as they are, fractions
    cut toward zero. *)
Example to_int_values :
  Rect.to_int 20 = 20%Z /\ Rect.to_int 0 = 0%Z /\
  Rect.to_int 19.9 = 19%Z /\ Rect.to_int (-5.5) = (-5)%Z.
Proof. vm_compute. auto. Qed.

(** C4, as the code has it.  [collidepoint] holds exactly on the points
    whose integer coordinates are from the left edge up to, and without,
    the right edge, and from the top edge up to, and without, the bottom
    edge. *)
Theorem collidepoint_half_open (r : Rect.t) (x y : float) :
  Rect.collidepoint r x y = true <->
  (Rect.left r <= Rect.to_int x < Rect.right r)%Z /\
  (Rect.top r <= Rect.to_int y < Rect.bottom r)%Z.
Proof.
  unfold Rect.collidepoint, Rect.left, Rect.right, Rect.top, Rect.bottom.
  rewrite !andb_true_iff, !Z.leb_le, !Z.ltb_lt. tauto.
Qed.

(** C4, the claim refuted.  A point on the right edge, and one on the
    bottom edge, of the rectangle x in [10,20], y in [-5,5] are within the
    closed bounds and yet outside for [collidepoint]. *)
Lemma collidepoint_edges_outside :
  let r := Rect.Build 10 (-5) 10 10 in
  ((Rect.left r <= Rect.to_int 20 <= Rect.right r)%Z /\
   (Rect.top r <= Rect.to_int 0 <= Rect.bottom r)%Z /\
   Rect.collidepoint r 20 0 = false) /\
  ((Rect.left r <= Rect.to_int 12 <= Rect.right r)%Z /\
   (Rect.top r <= Rect.to_int 5 <= Rect.bottom r)%Z /\
   Rect.collidepoint r 12 5 = false).
Proof. vm_compute. intuition discriminate. Qed.

(** [handle_click] in terms of the obstacle test. *)
Lemma handle_click_cases (e : UrbanEnvironment.t) (x y : float) :
  handle_click e (x, y) =
    if in_obstacle (buildings e) (no_fly_zones e) x y then (e, PyNone)
    else
      ({| buildings := buildings e; no_fly_zones := no_fly_zones e;
          delivery_points := delivery_points e;
          drone := Drone.set_target (drone e) x y;
          metrics := add_path_planned (metrics e);
          current_delivery := current_delivery e;
          simulation_time := simulation_time e; is_paused := is_paused e |},
       PyNone).
Proof.
  unfold handle_click, in_obstacle.
  destruct (existsb _ (buildings e)); [reflexivity|].
  destruct (existsb _ (no_fly_zones e)); reflexivity.
Qed.

(** C5, as the code has it.  A click inside a building or a no-fly zone
    leaves the whole simulation state as it was; any other click sets the
    drone's target to the point, sets it moving, counts one more planned
    path and changes nothing else.  Either way the call evaluates to
    [None]. *)
Theorem handle_click_spec (e : UrbanEnvironment.t) (x y : float) :
  snd (handle_click e (x, y)) = PyNone /\
  let e' := fst (handle_click e (x, y)) in
  if in_obstacle (buildings e) (no_fly_zones e) x y then e' = e
  else
    (Drone.target_x (drone e'), Drone.target_y (drone e')) = (x, y) /\
    Drone.is_moving (drone e') = true /\
    NavigationMetrics.paths_planned (metrics e')
      = NavigationMetrics.paths_planned (metrics e) + 1 /\
    e' = {| buildings := buildings e; no_fly_zones := no_fly_zones e;
            delivery_points := delivery_points e;
            drone := Drone.set_target (drone e) x y;
            metrics := add_path_planned (metrics e);
            current_delivery := current_delivery e;
            simulation_time := simulation_time e; is_paused := is_paused e |}.
Proof.
  rewrite handle_click_cases.
  destruct (in_obstacle (buildings e) (no_fly_zones e) x y); cbn; auto.
Qed.

(** C5, the claim refuted.  A click on a free point is accepted (the
    target is set) and a click in a no-fly zone is refused (nothing
    changes), but neither call returns a boolean: both return [None]. *)
Lemma handle_click_returns_none :
  let e := new [] in
  (in_obstacle (buildings e) (no_fly_zones e) 50 50 = false /\
   Drone.target_x (drone (fst (handle_click e (50, 50)%float))) = 50%float /\
   snd (handle_click e (50, 50)%float) = PyNone /\
   snd (handle_click e (50, 50)%float) <> PyBool true) /\
  (in_obstacle (buildings e) (no_fly_zones e) 400 300 = true /\
   fst (handle_click e (400, 300)%float) = e /\
   snd (handle_click e (400, 300)%float) = PyNone /\
   snd (handle_click e (400, 300)%float) <> PyBool false).
Proof. vm_compute. intuition discriminate. Qed.

Lemma drone_ticks_succ (n : nat) (d : Drone.t) :
  drone_ticks (S n) d = (d' ← drone_ticks n d; Drone.update d').
Proof.
  revert d. induction n as [|n IH]; intros d.
  - cbn [drone_ticks mbind result_bind]. destruct (Drone.update d); reflexivity.
  - change ((d1 ← Drone.update d; drone_ticks (S n) d1)
            = (d' ← (d1 ← Drone.update d; drone_ticks n d1); Drone.update d')).
    destruct (Drone.update d) as [d1|]; cbn [mbind result_bind];
      [apply IH | reflexivity].
Qed.

(** C6.  A drone at (0,0) with speed 3, sent to (30,0), is still on its
    way at (27,0) after nine updates, and after the tenth it is at (30,0)
    exactly, idle, and without its cargo flag, whatever the flag was. *)
Theorem arrives_after_ten_ticks (d : Drone.t) :
  Drone.x d = 0%float -> Drone.y d = 0%float -> Drone.speed d = 3%float ->
  exists d9 d10,
    drone_ticks 9 (Drone.set_target d 30 0) = Ok d9 /\
    Drone.is_moving d9 = true /\
    (Drone.x d9, Drone.y d9) = (27, 0)%float /\
    Drone.carrying_package d9 = Drone.carrying_package d /\
    Drone.update d9 = Ok d10 /\
    drone_ticks 10 (Drone.set_target d 30 0) = Ok d10 /\
    (Drone.x d10, Drone.y d10) = (30, 0)%float /\
    Drone.is_moving d10 = false /\
    Drone.carrying_package d10 = false.
Proof.
  destruct d as [x y tx ty speed size path clipped moving battery carrying].
  cbn [Drone.x Drone.y Drone.speed Drone.carrying_package]. intros -> -> ->.
  set (d0 := Drone.set_target _ 30 0).
  assert (match drone_ticks 9 d0 with
          | Ok d9 =>
              (Drone.is_moving d9 = true /\
               (Drone.x d9, Drone.y d9) = (27, 0)%float /\
               Drone.carrying_package d9 = carrying) /\
              match Drone.update d9 with
              | Ok d10 =>
                  (Drone.x d10, Drone.y d10) = (30, 0)%float /\
                  Drone.is_moving d10 = false /\
                  Drone.carrying_package d10 = false
              | Raise _ => False
              end
          | Raise _ => False
          end) as H.
  { vm_compute. destruct carrying; auto. }
  rewrite (drone_ticks_succ 9).
  destruct (drone_ticks 9 d0) as [d9|]; [|contradiction].
  destruct H as [(Hm & Hp & Hc) H].
  destruct (Drone.update d9) as [d10|] eqn:Hu; [|contradiction].
  destruct H as (Hp10 & Hm10 & Hc10).
  exists d9, d10. cbn [mbind result_bind]. rewrite Hu.
  repeat split; assumption.
Qed.

Lemma arrives_after_ten_ticks_witness :
  exists d9 d10,
    drone_ticks 9 (Drone.set_target (Drone.new (0, 0)%float) 30 0) = Ok d9 /\
    Drone.is_moving d9 = true /\
    (Drone.x d9, Drone.y d9) = (27, 0)%float /\
    Drone.carrying_package d9 = true /\
    Drone.update d9 = Ok d10 /\
    drone_ticks 10 (Drone.set_target (Drone.new (0, 0)%float) 30 0) = Ok d10 /\
    (Drone.x d10, Drone.y d10) = (30, 0)%float /\
    Drone.is_moving d10 = false /\
    Drone.carrying_package d10 = false.
Proof.
  apply (arrives_after_ten_ticks (Drone.new (0, 0)%float)); reflexivity.
Defined.

(** C7, as the code has it.  On a trail of fewer than two points, empty
    or of one point, the trail filter returns at once: no point is
    tested and the drone, its filtered trail included, is left as it
    was; and in every state the simulation reaches, the filtered trail of
    such a trail is empty. *)
Theorem clip_short_trail_untouched :
  (forall (d : Drone.t) buildings no_fly_zones,
     length (Drone.path d) < 2 ->
     Drone.clip_path_to_obstacles d buildings no_fly_zones = d) /\
  (forall generated_buildings (evs : list event),
     exists e, run (new generated_buildings) evs = Ok e /\
       (length (Drone.path (drone e)) < 2 -> Drone.clipped_path (drone e) = [])).
Proof.
  split.
  - intros d bs zs Hl. unfold Drone.clip_path_to_obstacles.
    apply Nat.ltb_lt in Hl. now rewrite Hl.
  - intros bs evs.
    destruct (run_ok evs (new bs) (new_consistent bs)) as (e & Hrun & He).
    exists e. split; [assumption|]. intros Hl.
    rewrite (clipped_filtered e He). unfold filtered.
    apply Nat.ltb_lt in Hl. now rewrite Hl.
Qed.

Lemma clip_short_trail_untouched_witness :
  let d := Drone.Build 5 0 30 0 3 8 [(5, 0)%float] [] true 100 true in
  Drone.clip_path_to_obstacles d [] [] = d.
Proof.
  apply (proj1 clip_short_trail_untouched). cbn. lia.
Defined.

(** C7, the claim refuted.  A trail of the single point (5,0), with no
    obstacle at all: the point is not blocked, and the filtered trail
    stays empty instead of holding that point. *)
Lemma clip_single_point_not_kept :
  let d := Drone.Build 5 0 30 0 3 8 [(5, 0)%float] [] true 100 true in
  in_obstacle [] [] 5 0 = false /\
  length (Drone.path d) = 1 /\
  length (Drone.clipped_path (Drone.clip_path_to_obstacles d [] [])) = 0.
Proof. vm_compute. auto. Qed.

(** C8.  With a positive speed [update] never raises, so never divides by
    zero: a zero distance is not above the speed, so a moving drone at
    zero distance takes the arrival branch and ends idle at its target,
    and whenever the moving branch is taken its divisor is not zero. *)
Theorem update_never_divides_by_zero (d : Drone.t) :
  (0 <? Drone.speed d)%float = true ->
  (exists d', Drone.update d = Ok d') /\
  ((Drone.distance d =? 0)%float = true ->
   (Drone.speed d <? Drone.distance d)%float = false /\
   (Drone.is_moving d = true ->
    Drone.update d = Ok (Drone.arrive d) /\
    Drone.is_moving (Drone.arrive d) = false /\
    (Drone.x (Drone.arrive d), Drone.y (Drone.arrive d))
      = (Drone.target_x d, Drone.target_y d))) /\
  ((Drone.speed d <? Drone.distance d)%float = true ->
   (Drone.distance d =? 0)%float = false).
Proof.
  intros Hs. split; [|split].
  - destruct (drone_update_ok d Hs) as (d' & Hu & _). eauto.
  - intros Hz.
    assert ((Drone.speed d <? Drone.distance d)%float = false) as Hd.
    { destruct (Drone.speed d <? Drone.distance d)%float eqn:Hd; [|reflexivity].
      pose proof (above_positive_nonzero _ _ Hs Hd). congruence. }
    split; [assumption|]. intros Hm.
    unfold Drone.update. rewrite Hm, Hd. cbn [negb]. auto.
  - now apply above_positive_nonzero.
Qed.

Lemma update_never_divides_by_zero_witness :
  let d := Drone.set_target (Drone.new (100, 100)%float) 100 100 in
  (Drone.distance d =? 0)%float = true /\
  Drone.is_moving d = true /\
  Drone.update d = Ok (Drone.arrive d).
Proof.
  split; [reflexivity|]. split; [reflexivity|].
  apply (update_never_divides_by_zero
           (Drone.set_target (Drone.new (100, 100)%float) 100 100));
    reflexivity.
Defined.

(** A drone sent to its own position arrives on the next update. *)
Lemma update_at_own_position (d : Drone.t) :
  (0 <? Drone.speed d)%float = true ->
  Drone.update (Drone.set_target d (Drone.x d) (Drone.y d))
  = Ok (Drone.arrive (Drone.set_target d (Drone.x d) (Drone.y d))).
Proof.
  intros Hs.
  set (d1 := Drone.set_target d (Drone.x d) (Drone.y d)).
  assert ((Drone.speed d1 <? Drone.distance d1)%float = false) as Hd.
  { apply not_above_zero_or_nan; [exact Hs|].
    now apply distance_at_target. }
  unfold Drone.update. rewrite Hd. reflexivity.
Qed.

(** C9.  A click on the drone's own position, when that point is in no
    obstacle, sets the drone moving; the tick that follows leaves the
    drone where it was, idle, with the same trail and the same battery,
    and without its cargo flag. *)
Theorem click_on_own_position_drops_cargo (e : UrbanEnvironment.t)
    (processing_time : float) :
  is_paused e = false ->
  (0 <? Drone.speed (drone e))%float = true ->
  in_obstacle (buildings e) (no_fly_zones e) (Drone.x (drone e)) (Drone.y (drone e))
    = false ->
  let e1 := fst (handle_click e (Drone.x (drone e), Drone.y (drone e))) in
  Drone.is_moving (drone e1) = true /\
  (Drone.target_x (drone e1), Drone.target_y (drone e1))
    = (Drone.x (drone e), Drone.y (drone e)) /\
  exists e2,
    update e1 processing_time = Ok e2 /\
    (Drone.x (drone e2), Drone.y (drone e2)) = (Drone.x (drone e), Drone.y (drone e)) /\
    Drone.is_moving (drone e2) = false /\
    Drone.path (drone e2) = Drone.path (drone e) /\
    Drone.battery (drone e2) = Drone.battery (drone e) /\
    Drone.carrying_package (drone e2) = false /\
    current_delivery e2 = current_delivery e.
Proof.
  intros Hp Hs Hb e1. subst e1.
  rewrite handle_click_cases, Hb. cbn [fst drone].
  split; [reflexivity|]. split; [reflexivity|].
  unfold update. cbn [is_paused drone buildings no_fly_zones]. rewrite Hp. cbn [negb].
  rewrite (update_at_own_position _ Hs). cbn [mbind result_bind].
  rewrite clip_path_to_obstacles_spec.
  unfold auto_advance.
  cbn [drone Drone.is_moving Drone.carrying_package Drone.set_clipped_path
       Drone.arrive Drone.set_target].
  replace (if Drone.carrying_package (drone e) then false
           else Drone.carrying_package (drone e)) with false
    by now destruct (Drone.carrying_package (drone e)).
  cbn [negb andb].
  eexists. split; [reflexivity|]. cbn.
  destruct (Drone.carrying_package (drone e)); auto 10.
Qed.

Lemma click_on_own_position_drops_cargo_witness :
  let e := new [] in
  let e1 := fst (handle_click e (Drone.x (drone e), Drone.y (drone e))) in
  Drone.carrying_package (drone e) = true /\
  Drone.is_moving (drone e1) = true /\
  (Drone.target_x (drone e1), Drone.target_y (drone e1))
    = (Drone.x (drone e), Drone.y (drone e)) /\
  exists e2,
    update e1 0 = Ok e2 /\
    (Drone.x (drone e2), Drone.y (drone e2)) = (Drone.x (drone e), Drone.y (drone e)) /\
    Drone.is_moving (drone e2) = false /\
    Drone.path (drone e2) = Drone.path (drone e) /\
    Drone.battery (drone e2) = Drone.battery (drone e) /\
    Drone.carrying_package (drone e2) = false /\
    current_delivery e2 = current_delivery e.
Proof.
  split; [reflexivity|].
  apply (click_on_own_position_drops_cargo (new []) 0); reflexivity.
Defined.

(** C10.  From the initial state (the drone idle on waypoint 0 with its
    cargo, nothing clicked) the first tick advances the sequencer by
    itself: the index becomes 1, the drone's target is waypoint 1, the
    drone is moving and one planned path is counted. *)
Theorem first_tick_self_starts (generated_buildings : list Building.t)
    (processing_time : float) :
  let e0 := new generated_buildings in
  (Drone.is_moving (drone e0) = false /\
   Drone.carrying_package (drone e0) = true /\
   current_delivery e0 = 0 /\
   delivery_points e0 !! 0 = Some (Drone.x (drone e0), Drone.y (drone e0)) /\
   NavigationMetrics.paths_planned (metrics e0) = 0) /\
  exists e1,
    update e0 processing_time = Ok e1 /\
    current_delivery e1 = 1 /\
    delivery_points e1 !! 1 = Some (Drone.target_x (drone e1), Drone.target_y (drone e1)) /\
    (Drone.target_x (drone e1), Drone.target_y (drone e1)) = (1100, 100)%float /\
    Drone.is_moving (drone e1) = true /\
    NavigationMetrics.paths_planned (metrics e1) = 1 /\
    Drone.carrying_package (drone e1) = true /\
    NavigationMetrics.successful_deliveries (metrics e1) = 0.
Proof.
  intros e0. split; [repeat split|].
  eexists. split; [vm_compute; reflexivity|].
  repeat split.
Qed.

(** ** Further properties of the code *)

(** *** The delivery sequencer *)

Lemma next_index_mod (n a : nat) :
  0 < n ->
  (if (a mod n <? n - 1)%nat then a mod n + 1 else 0) = (a + 1) mod n /\
  (a + 1) / n = a / n + (if ((a + 1) mod n =? 0)%nat then 1 else 0).
Proof.
  intros Hn.
  pose proof (Nat.div_mod_eq a n) as Ha.
  pose proof (Nat.mod_upper_bound a n) as Hr.
  destruct (Nat.ltb_spec (a mod n) (n - 1)) as [H|H].
  - assert ((a + 1) mod n = a mod n + 1) as Hm.
    { symmetry. apply (Nat.mod_unique _ _ (a / n)); lia. }
    assert ((a + 1) / n = a / n) as Hq.
    { symmetry. apply (Nat.div_unique _ _ _ (a mod n + 1)); lia. }
    rewrite Hm, Hq. split; [reflexivity|].
    destruct (Nat.eqb_spec (a mod n + 1) 0); lia.
  - assert ((a + 1) mod n = 0) as Hm.
    { symmetry. apply (Nat.mod_unique _ _ (a / n + 1)); lia. }
    assert ((a + 1) / n = a / n + 1) as Hq.
    { symmetry. apply (Nat.div_unique _ _ _ 0); lia. }
    rewrite Hm, Hq. split; reflexivity.
Qed.

(** What one call of [next_delivery] does to a state with waypoints. *)
Lemma next_delivery_effect (e : UrbanEnvironment.t) :
  0 < length (delivery_points e) ->
  exists e' target,
    next_delivery e = Ok e' /\
    delivery_points e !! next_index e = Some target /\
    delivery_points e' = delivery_points e /\
    current_delivery e' = next_index e /\
    NavigationMetrics.successful_deliveries (metrics e')
      = NavigationMetrics.successful_deliveries (metrics e)
        + (if (next_index e =? 0)%nat then 1 else 0) /\
    NavigationMetrics.paths_planned (metrics e')
      = NavigationMetrics.paths_planned (metrics e) + 1 /\
    Drone.is_moving (drone e') = true /\
    (Drone.target_x (drone e'), Drone.target_y (drone e')) = target /\
    Drone.carrying_package (drone e')
      = (if (next_index e =? 0)%nat then true else Drone.carrying_package (drone e)).
Proof.
  intros Hn.
  assert (next_index e < length (delivery_points e)) as Hi.
  { unfold next_index.
    destruct (Nat.ltb_spec (current_delivery e) (length (delivery_points e) - 1)); lia. }
  destruct (lookup_lt_is_Some_2 _ _ Hi) as [[tx ty] Ht].
  unfold next_delivery, py_index. fold (next_index e). rewrite Ht.
  cbn [mbind result_bind].
  destruct (next_index e =? 0)%nat; eexists _, (tx, ty);
    (split; [reflexivity|]); cbn; repeat split; auto; lia.
Qed.

(** X1.  [next_delivery] raises exactly when there is no waypoint, and
    then it is an [IndexError]; with a waypoint it returns, whatever the
    index was, and leaves an index inside the list. *)
Theorem next_delivery_raises_iff_no_waypoint (e : UrbanEnvironment.t) :
  match delivery_points e with
  | [] => next_delivery e = Raise IndexError
  | _ :: _ =>
      exists e', next_delivery e = Ok e' /\
        current_delivery e' < length (delivery_points e')
  end.
Proof.
  destruct (delivery_points e) as [|p ps] eqn:Hdp.
  - unfold next_delivery, py_index. rewrite Hdp. reflexivity.
  - assert (0 < length (delivery_points e)) as Hn by (rewrite Hdp; cbn; lia).
    destruct (next_delivery_effect e Hn) as (e' & t & Hr & Ht & Hd & Hc & _).
    exists e'. split; [assumption|].
    rewrite Hc, Hd. now apply lookup_lt_Some in Ht.
Qed.

(** X2.  [k] presses of the N key from an index inside the waypoint list
    of length [n]: the index ends at [(index + k) mod n], one delivery is
    counted for each return to waypoint 0, that is [(index + k) / n] in
    all, and [k] planned paths are counted. *)
Theorem key_n_cycles (e : UrbanEnvironment.t) (k : nat) :
  current_delivery e < length (delivery_points e) ->
  exists e',
    run e (replicate k KeyN) = Ok e' /\
    delivery_points e' = delivery_points e /\
    current_delivery e' = (current_delivery e + k) mod length (delivery_points e) /\
    NavigationMetrics.successful_deliveries (metrics e')
      = NavigationMetrics.successful_deliveries (metrics e)
        + (current_delivery e + k) / length (delivery_points e) /\
    NavigationMetrics.paths_planned (metrics e')
      = NavigationMetrics.paths_planned (metrics e) + k.
Proof.
  intros Hi. induction k as [|k IH].
  - exists e. cbn [replicate run].
    rewrite Nat.add_0_r, Nat.mod_small, Nat.div_small by assumption.
    repeat split; lia.
  - destruct IH as (ek & Hrun & Hdp & Hcur & Hsucc & Hpp).
    rewrite replicate_S_end, run_app, Hrun. cbn [mbind result_bind run step].
    assert (0 < length (delivery_points ek)) as Hn by (rewrite Hdp; lia).
    destruct (next_delivery_effect ek Hn) as (e' & t & Hr & _ & Hd & Hc & Hs & Hp & _).
    rewrite Hr. cbn [mbind result_bind]. exists e'.
    split; [reflexivity|].
    unfold next_index in Hc, Hs. rewrite Hcur, Hdp in Hc, Hs.
    rewrite Hdp in Hn.
    destruct (next_index_mod (length (delivery_points e)) (current_delivery e + k) Hn)
      as [Hm Hq].
    rewrite Hm in Hc, Hs.
    replace (current_delivery e + S k) with (current_delivery e + k + 1) by lia.
    repeat split; [congruence | assumption | lia | lia].
Qed.

Lemma key_n_cycles_witness :
  exists e',
    run (new []) (replicate 7 KeyN) = Ok e' /\
    delivery_points e' = delivery_points (new []) /\
    current_delivery e' = 2 /\
    NavigationMetrics.successful_deliveries (metrics e') = 1 /\
    NavigationMetrics.paths_planned (metrics e') = 7.
Proof.
  apply (key_n_cycles (new []) 7). cbn. lia.
Defined.

(** *** Pause and reset *)

Lemma paused_ticks (pts : list float) (e : UrbanEnvironment.t) :
  is_paused e = true -> run e (map Tick pts) = Ok e.
Proof.
  intros Hp. induction pts as [|pt pts IH]; cbn [map run step]; [reflexivity|].
  unfold update. rewrite Hp. cbn [negb mbind result_bind]. exact IH.
Qed.

(** X3.  Pausing a running simulation, letting any number of frames tick
    and resuming gives back the very state it was paused in: a paused
    tick changes nothing, not even the clock or the counters. *)
Theorem pause_ticks_resume (e : UrbanEnvironment.t) (pts : list float) :
  is_paused e = false ->
  run e (KeySpace :: map Tick pts ++ [KeySpace]) = Ok e.
Proof.
  intros Hp. cbn [run step mbind result_bind].
  rewrite run_app, paused_ticks by (cbn; now rewrite Hp).
  cbn [mbind result_bind run step is_paused]. rewrite Hp.
  destruct e; cbn in *. now subst.
Qed.

Lemma pause_ticks_resume_witness :
  run (new []) (KeySpace :: map Tick [16; 17; 16]%float ++ [KeySpace]) = Ok (new []).
Proof.
  apply (pause_ticks_resume (new []) [16; 17; 16]%float). reflexivity.
Defined.

(** X4.  The R key after any history gives the state of [__init__] on
    the freshly drawn layout: nothing of the past run survives, and the
    history before it never raises. *)
Theorem key_r_resets (generated_buildings fresh_buildings : list Building.t)
    (evs : list event) :
  run (new generated_buildings) (evs ++ [KeyR fresh_buildings])
  = Ok (new fresh_buildings).
Proof.
  rewrite run_app.
  destruct (run_ok evs (new generated_buildings) (new_consistent _))
    as (e & -> & _).
  reflexivity.
Qed.

(** *** The flight and the obstacles *)

Lemma forget_update (e : UrbanEnvironment.t) (processing_time : float) :
  forget_obstacles <$> update (forget_obstacles e) processing_time
  = forget_obstacles <$> update e processing_time.
Proof.
  destruct e as [bs zs dp d m cur t paused].
  unfold update. cbn [forget_obstacles is_paused drone buildings no_fly_zones
                      delivery_points metrics current_delivery simulation_time].
  destruct paused; cbn [negb]; [reflexivity|].
  assert (Drone.update (Drone.set_clipped_path d [])
          = (fun d' => Drone.set_clipped_path d' []) <$> Drone.update d) as Hu.
  { destruct d as [x y tx ty sp sz path clipped moving battery carrying].
    unfold Drone.update. cbn [Drone.set_clipped_path Drone.is_moving Drone.speed].
    destruct moving; cbn [negb]; [|reflexivity].
    change (Drone.distance _) with
      (Drone.distance (Drone.Build x y tx ty sp sz path clipped true battery carrying)).
    destruct (sp <? _)%float; [|reflexivity].
    unfold Drone.advance, py_div.
    change (Drone.distance _) with
      (Drone.distance (Drone.Build x y tx ty sp sz path clipped true battery carrying)).
    destruct (_ =? 0)%float; reflexivity. }
  rewrite Hu. destruct (Drone.update d) as [d1|err]; [|reflexivity].
  cbn [fmap result_fmap mbind result_bind].
  rewrite !clip_path_to_obstacles_spec.
  unfold auto_advance.
  cbn [drone Drone.set_clipped_path Drone.is_moving Drone.carrying_package
       delivery_points current_delivery Drone.x Drone.y Drone.path].
  destruct (negb (Drone.is_moving d1) && Drone.carrying_package d1); [|reflexivity].
  unfold py_index. destruct (dp !! cur) as [target|]; [|reflexivity].
  cbn [mbind result_bind].
  destruct (_ <? 10)%float; [|reflexivity].
  unfold next_delivery, py_index.
  cbn [delivery_points current_delivery].
  destruct (dp !! _) as [target'|]; [|reflexivity].
  cbn [mbind result_bind].
  destruct (_ =? 0)%nat; reflexivity.
Qed.

Lemma forget_step (e : UrbanEnvironment.t) (ev : event) :
  is_click ev = false ->
  forget_obstacles <$> step (forget_obstacles e) ev
  = forget_obstacles <$> step e ev.
Proof.
  intros Hev. destruct ev as [|bs| | |pos|pt]; try discriminate Hev; cbn [step].
  - reflexivity.
  - reflexivity.
  - reflexivity.
  - unfold next_delivery, py_index. cbn [forget_obstacles delivery_points current_delivery].
    destruct (delivery_points e !! _); [|reflexivity].
    cbn [mbind result_bind]. destruct (_ =? 0)%nat; reflexivity.
  - apply forget_update.
Qed.

Lemma forget_run (evs : list event) (e1 e2 : UrbanEnvironment.t) :
  Forall (fun ev => is_click ev = false) evs ->
  forget_obstacles e1 = forget_obstacles e2 ->
  forget_obstacles <$> run e1 evs = forget_obstacles <$> run e2 evs.
Proof.
  intros Hevs. revert e1 e2.
  induction Hevs as [|ev evs Hev _ IH]; intros e1 e2 He; cbn [run].
  - cbn. now rewrite He.
  - pose proof (forget_step e1 ev Hev) as H1.
    pose proof (forget_step e2 ev Hev) as H2.
    rewrite He, H2 in H1.
    destruct (step e1 ev) as [a|err1], (step e2 ev) as [b|err2];
      cbn [fmap result_fmap mbind result_bind] in *; try discriminate H1.
    + apply IH. congruence.
    + congruence.
Qed.

(** X5.  The obstacles never steer the flight.  Two states that differ
    only in the obstacle registry, the filtered trail and the two
    counters fed by it stay so under any keys and ticks (clicks apart,
    which are tested against the registry): position, target, trail,
    battery, cargo, waypoint index, clock and the other counters are the
    same, and one run raises exactly when the other does.  A click on the
    free point (500,300) makes the drone fly straight through the no-fly
    zone around (400,300): after 110 ticks it is moving inside it. *)
Theorem flight_ignores_obstacles :
  (forall (evs : list event) (e1 e2 : UrbanEnvironment.t),
     Forall (fun ev => is_click ev = false) evs ->
     forget_obstacles e1 = forget_obstacles e2 ->
     forget_obstacles <$> run e1 evs = forget_obstacles <$> run e2 evs) /\
  (exists e,
     run (new []) (Click (500, 300)%float :: replicate 110 (Tick 0)) = Ok e /\
     Drone.is_moving (drone e) = true /\
     existsb (fun z => NoFlyZone.contains_point z (Drone.x (drone e)) (Drone.y (drone e)))
       (no_fly_zones e) = true).
Proof.
  split; [exact forget_run|].
  eexists. split; [vm_compute; reflexivity|]. split; vm_compute; reflexivity.
Qed.

Lemma flight_ignores_obstacles_witness :
  forget_obstacles <$> run (new [Building.new 50 50 200 200]) (replicate 40 (Tick 0))
  = forget_obstacles <$> run (new []) (replicate 40 (Tick 0)).
Proof.
  apply (proj1 flight_ignores_obstacles).
  - apply Forall_forall. intros ev Hev. apply elem_of_replicate in Hev as [-> _].
    reflexivity.
  - reflexivity.
Defined.

(** *** What a tick is made of *)

Lemma drone_update_cases (d d' : Drone.t) :
  Drone.update d = Ok d' ->
  (Drone.is_moving d = false /\ d' = d) \/
  (Drone.is_moving d = true /\ d' = Drone.arrive d) \/
  (Drone.is_moving d = true /\ Drone.advance d = Ok d' /\
   Drone.is_moving d' = true /\
   Drone.speed d' = Drone.speed d /\ Drone.size d' = Drone.size d /\
   Drone.carrying_package d' = Drone.carrying_package d /\
   Drone.clipped_path d' = Drone.clipped_path d /\
   (Drone.target_x d', Drone.target_y d') = (Drone.target_x d, Drone.target_y d)).
Proof.
  unfold Drone.update. destruct (Drone.is_moving d) eqn:Hm; cbn [negb].
  - destruct (Drone.speed d <? Drone.distance d)%float.
    + intros Ha. right. right. split; [reflexivity|]. split; [assumption|].
      revert Ha. unfold Drone.advance.
      destruct (py_div (Drone.target_x d - Drone.x d) (Drone.distance d));
        cbn [mbind result_bind]; [|done].
      destruct (py_div (Drone.target_y d - Drone.y d) (Drone.distance d));
        cbn [mbind result_bind]; [|done].
      intros [= <-]. cbn. repeat split; assumption.
    + intros [= <-]. auto.
  - intros [= <-]. auto.
Qed.

Lemma update_inv (e e' : UrbanEnvironment.t) (processing_time : float) :
  update e processing_time = Ok e' ->
  (is_paused e = true /\ e' = e) \/
  (is_paused e = false /\
   exists d, Drone.update (drone e) = Ok d /\
     auto_advance (after_drone_update e d processing_time) = Ok e').
Proof.
  unfold update. destruct (is_paused e) eqn:Hp; cbn [negb].
  - intros [= <-]. auto.
  - destruct (Drone.update (drone e)) as [d|]; cbn [mbind result_bind]; [|done].
    intros Ha. right. split; [reflexivity|]. exists d.
    split; [reflexivity|]. unfold after_drone_update. rewrite Hp. exact Ha.
Qed.

Lemma auto_advance_inv (e e' : UrbanEnvironment.t) :
  auto_advance e = Ok e' ->
  e' = e \/
  (Drone.is_moving (drone e) = false /\ Drone.carrying_package (drone e) = true /\
   next_delivery e = Ok e').
Proof.
  unfold auto_advance.
  destruct (Drone.is_moving (drone e)), (Drone.carrying_package (drone e));
    cbn [negb andb]; try (intros [= <-]; auto; fail).
  destruct (py_index (delivery_points e) (current_delivery e));
    cbn [mbind result_bind]; [|done].
  destruct (_ <? 10)%float; [auto | intros [= <-]; auto].
Qed.

(** What [next_delivery] leaves untouched. *)
Lemma next_delivery_keeps (e e' : UrbanEnvironment.t) :
  next_delivery e = Ok e' ->
  0 < length (delivery_points e) /\
  buildings e' = buildings e /\ no_fly_zones e' = no_fly_zones e /\
  is_paused e' = is_paused e /\ simulation_time e' = simulation_time e /\
  Drone.speed (drone e') = Drone.speed (drone e) /\
  Drone.size (drone e') = Drone.size (drone e) /\
  (Drone.x (drone e'), Drone.y (drone e')) = (Drone.x (drone e), Drone.y (drone e)) /\
  Drone.path (drone e') = Drone.path (drone e) /\
  Drone.clipped_path (drone e') = Drone.clipped_path (drone e) /\
  Drone.battery (drone e') = Drone.battery (drone e) /\
  NavigationMetrics.obstacles_avoided (metrics e')
    = NavigationMetrics.obstacles_avoided (metrics e) /\
  NavigationMetrics.paths_clipped (metrics e')
    = NavigationMetrics.paths_clipped (metrics e).
Proof.
  unfold next_delivery, py_index.
  destruct (delivery_points e !! _) as [target|] eqn:Ht; cbn [mbind result_bind]; [|done].
  apply lookup_lt_Some in Ht.
  destruct (_ =? 0)%nat; intros [= <-]; cbn; repeat split; lia.
Qed.

(** *** Invariants along a run *)
Section RunInvariant.

Variable allowed : event -> bool.
Variable P : UrbanEnvironment.t -> Prop.
Hypothesis P_step :
  forall e ev e', allowed ev = true -> step e ev = Ok e' -> P e -> P e'.

Lemma run_invariant (evs : list event) (e e' : UrbanEnvironment.t) :
  Forall (fun ev => allowed ev = true) evs ->
  run e evs = Ok e' -> P e -> P e'.
Proof.
  intros Hevs. revert e.
  induction Hevs as [|ev evs Hev _ IH]; intros e; cbn [run].
  - intros [= <-]. auto.
  - destruct (step e ev) as [e1|] eqn:Hs; cbn [mbind result_bind]; [|done].
    intros Hrun He. apply (IH e1 Hrun). now apply (P_step e ev).
Qed.

End RunInvariant.

Lemma settled_new (generated_buildings : list Building.t) :
  settled (new generated_buildings).
Proof. split; reflexivity. Qed.

Lemma settled_next_delivery (e e' : UrbanEnvironment.t) :
  next_delivery e = Ok e' -> settled e -> settled e'.
Proof.
  intros Hn [Hs Hz Hf Hw Hi].
  destruct (next_delivery_keeps e e' Hn)
    as (Hlen & _ & Hzones & _ & _ & Hspeed & Hsize & _).
  destruct (next_delivery_effect e Hlen)
    as (e1 & t & Hn1 & _ & Hdp & _ & _ & _ & Hm & _).
  rewrite Hn in Hn1. injection Hn1 as <-.
  split; try congruence.
Qed.

Lemma settled_step (e : UrbanEnvironment.t) (ev : event) (e' : UrbanEnvironment.t) :
  step e ev = Ok e' -> settled e -> settled e'.
Proof.
  destruct ev as [|bs| | |[px py]|pt]; cbn [step].
  - intros [= <-] []. split; assumption.
  - intros [= <-] _. apply settled_new.
  - intros [= <-] []. split; assumption.
  - apply settled_next_delivery.
  - intros Hc He.
    assert (e' = fst (handle_click e (px, py))) as -> by congruence.
    rewrite handle_click_cases.
    destruct (in_obstacle _ _ _ _); cbn [fst]; [assumption|].
    destruct He. split; cbn; try assumption. discriminate.
  - intros Hu He.
    destruct (update_inv e e' pt Hu) as [[_ ->] | (_ & d & Hd & Ha)]; [assumption|].
    assert (settled (after_drone_update e d pt)) as H1.
    { destruct He as [Hs Hz Hf Hw Hi].
      unfold after_drone_update. rewrite clip_path_to_obstacles_spec.
      destruct (drone_update_cases _ _ Hd)
        as [[Hm ->] | [[Hm ->] | (Hm & _ & Hm' & Hs' & Hz' & _)]];
        split; cbn; try assumption; try congruence; auto. }
    destruct (auto_advance_inv _ _ Ha) as [-> | (_ & _ & Hn)]; [assumption|].
    now apply (settled_next_delivery _ _ Hn).
Qed.

Lemma settled_run (generated_buildings : list Building.t) (evs : list event) :
  exists e, run (new generated_buildings) evs = Ok e /\ consistent e /\ settled e.
Proof.
  destruct (run_ok evs (new generated_buildings) (new_consistent _)) as (e & Hrun & He).
  exists e. split; [assumption|]. split; [assumption|].
  apply (run_invariant (fun _ => true) settled) with (evs := evs)
    (e := new generated_buildings).
  - intros e1 ev e2 _. apply settled_step.
  - apply Forall_forall. auto.
  - assumption.
  - apply settled_new.
Qed.

(** X6.  Nothing but [__init__] writes the configuration: in every state
    the simulation reaches the speed is 3, the drone's size is 8, the
    no-fly zones and the waypoints are those of [__init__], and the
    waypoint index is inside the list of five. *)
Theorem configuration_is_fixed (generated_buildings : list Building.t)
    (evs : list event) :
  exists e,
    run (new generated_buildings) evs = Ok e /\
    Drone.speed (drone e) = 3%float /\
    Drone.size (drone e) = 8%Z /\
    no_fly_zones e = _generate_no_fly_zones /\
    delivery_points e = _generate_delivery_points /\
    current_delivery e < 5.
Proof.
  destruct (settled_run generated_buildings evs) as (e & Hrun & Hc & [Hs Hz Hf Hw _]).
  exists e. repeat split; try assumption.
  pose proof (index_in_range e Hc) as Hi. now rewrite Hw in Hi.
Qed.

(** X7.  In every state the simulation reaches, a drone that is not
    moving sits exactly on its target: arrival snaps it there and every
    new target sets it moving. *)
Theorem idle_drone_sits_on_target (generated_buildings : list Building.t)
    (evs : list event) :
  exists e,
    run (new generated_buildings) evs = Ok e /\
    (Drone.is_moving (drone e) = false ->
     (Drone.x (drone e), Drone.y (drone e))
     = (Drone.target_x (drone e), Drone.target_y (drone e))).
Proof.
  destruct (settled_run generated_buildings evs) as (e & Hrun & _ & [_ _ _ _ Hi]).
  exists e. split; assumption.
Qed.

(** *** Deliveries without the N key *)

Lemma unattended_new (generated_buildings : list Building.t) :
  unattended (new generated_buildings).
Proof. split; cbn; auto. Qed.

Lemma unattended_step (e : UrbanEnvironment.t) (ev : event) (e' : UrbanEnvironment.t) :
  negb (is_key_n ev) = true -> step e ev = Ok e' -> unattended e -> unattended e'.
Proof.
  destruct ev as [|bs| | |[px py]|pt]; cbn [step is_key_n negb]; try discriminate; intros _.
  - intros [= <-] []. split; assumption.
  - intros [= <-] _. apply unattended_new.
  - intros [= <-] []. split; assumption.
  - intros Hc He.
    assert (e' = fst (handle_click e (px, py))) as -> by congruence.
    rewrite handle_click_cases.
    destruct (in_obstacle _ _ _ _); cbn [fst]; [assumption|].
    destruct He. split; cbn; try assumption. discriminate.
  - intros Hu He.
    destruct (update_inv e e' pt Hu) as [[_ ->] | (_ & d & Hd & Ha)]; [assumption|].
    assert (unattended (after_drone_update e d pt)) as H1.
    { destruct He as [Hl Hn Hf Hd0].
      unfold after_drone_update. rewrite clip_path_to_obstacles_spec.
      destruct (drone_update_cases _ _ Hd)
        as [[Hm ->] | [[Hm ->] | (Hm & _ & Hm' & _)]];
        split; cbn; try assumption; try congruence.
      all: intros Hidle Hcarry; try congruence.
      revert Hcarry. now destruct (Drone.carrying_package (drone e)). }
    destruct (auto_advance_inv _ _ Ha) as [-> | (Hidle & Hload & Hn)]; [assumption|].
    destruct H1 as [Hl Hz Hf Hd0].
    specialize (Hd0 Hidle Hload).
    assert (0 < length (delivery_points (after_drone_update e d pt))) as Hpos by lia.
    destruct (next_delivery_effect _ Hpos)
      as (e1 & t & Hn1 & _ & Hdp & Hcur & Hsucc & _ & Hmov & _).
    rewrite Hn in Hn1. injection Hn1 as <-.
    assert (next_index (after_drone_update e d pt) = 1) as Hni.
    { unfold next_index. rewrite Hd0, Hl. reflexivity. }
    rewrite Hni in Hcur, Hsucc. cbn [Nat.eqb] in Hsucc.
    split; try congruence; try lia.
Qed.

(** X8.  Without the N key no delivery is ever counted and the sequencer
    never gets past waypoint 1: the auto-advance of a tick needs an idle
    drone with its cargo, and the only such drone is the one of
    [__init__], not yet sent anywhere. *)
Theorem no_delivery_without_key_n (generated_buildings : list Building.t)
    (evs : list event) :
  Forall (fun ev => negb (is_key_n ev) = true) evs ->
  exists e,
    run (new generated_buildings) evs = Ok e /\
    NavigationMetrics.successful_deliveries (metrics e) = 0 /\
    current_delivery e ≤ 1 /\
    (Drone.is_moving (drone e) = false -> Drone.carrying_package (drone e) = true ->
     current_delivery e = 0).
Proof.
  intros Hevs.
  destruct (run_ok evs (new generated_buildings) (new_consistent _)) as (e & Hrun & _).
  exists e. split; [assumption|].
  assert (unattended e) as [Hl Hn Hf Hd].
  { apply (run_invariant (fun ev => negb (is_key_n ev)) unattended) with (evs := evs)
      (e := new generated_buildings).
    - intros e1 ev e2. apply unattended_step.
    - exact Hevs.
    - exact Hrun.
    - apply unattended_new. }
  auto.
Qed.

Lemma no_delivery_without_key_n_witness :
  exists e,
    run (new []) (Click (500, 300)%float :: replicate 400 (Tick 0) ++ [KeyC; KeySpace])
      = Ok e /\
    NavigationMetrics.successful_deliveries (metrics e) = 0 /\
    current_delivery e ≤ 1 /\
    (Drone.is_moving (drone e) = false -> Drone.carrying_package (drone e) = true ->
     current_delivery e = 0).
Proof.
  apply (no_delivery_without_key_n []).
  apply Forall_cons; split; [reflexivity|]. apply Forall_app; split.
  - apply Forall_forall. intros ev Hev. apply elem_of_replicate in Hev as [-> _].
    reflexivity.
  - repeat constructor.
Defined.

(** *** The counters *)

Lemma counters_within_refl (e e' : UrbanEnvironment.t) :
  metrics e' = metrics e -> counters_within 0 e e'.
Proof. intros H. unfold counters_within. rewrite H. cbn. lia. Qed.

Lemma counters_within_trans (n k : nat) (e1 e2 e3 : UrbanEnvironment.t) :
  counters_within n e1 e2 -> counters_within k e2 e3 -> counters_within (n + k) e1 e3.
Proof. unfold counters_within. cbn. lia. Qed.

Lemma counters_next_delivery (e e' : UrbanEnvironment.t) :
  next_delivery e = Ok e' ->
  NavigationMetrics.paths_planned (metrics e')
    = NavigationMetrics.paths_planned (metrics e) + 1 /\
  NavigationMetrics.obstacles_avoided (metrics e')
    = NavigationMetrics.obstacles_avoided (metrics e) /\
  NavigationMetrics.paths_clipped (metrics e')
    = NavigationMetrics.paths_clipped (metrics e) /\
  NavigationMetrics.successful_deliveries (metrics e)
    ≤ NavigationMetrics.successful_deliveries (metrics e')
    ≤ NavigationMetrics.successful_deliveries (metrics e) + 1.
Proof.
  intros Hn.
  destruct (next_delivery_keeps e e' Hn) as (Hlen & H). 
  destruct (next_delivery_effect e Hlen) as (e1 & t & Hn1 & _ & _ & _ & Hs & Hp & _).
  rewrite Hn in Hn1. injection Hn1 as <-.
  repeat split; try tauto; try assumption;
    destruct (next_index e =? 0)%nat; lia.
Qed.

Lemma counters_step (e : UrbanEnvironment.t) (ev : event) (e' : UrbanEnvironment.t) :
  negb (is_key_r ev) = true -> step e ev = Ok e' -> counters_within 1 e e'.
Proof.
  destruct ev as [|bs| | |[px py]|pt]; cbn [step is_key_r negb]; try discriminate; intros _.
  - intros [= <-]. unfold counters_within. cbn. lia.
  - intros [= <-]. unfold counters_within. cbn. lia.
  - intros Hn. destruct (counters_next_delivery _ _ Hn) as (Hp & Ho & Hc & Hs).
    unfold counters_within. cbn. lia.
  - intros Hc.
    assert (e' = fst (handle_click e (px, py))) as -> by congruence.
    rewrite handle_click_cases. unfold counters_within.
    destruct (in_obstacle _ _ _ _); cbn; lia.
  - intros Hu.
    destruct (update_inv e e' pt Hu) as [[_ ->] | (_ & d & Hd & Ha)].
    { unfold counters_within. cbn. lia. }
    assert (counters_within 1 e (after_drone_update e d pt)
            /\ NavigationMetrics.paths_planned (metrics (after_drone_update e d pt))
               = NavigationMetrics.paths_planned (metrics e)
            /\ NavigationMetrics.successful_deliveries (metrics (after_drone_update e d pt))
               = NavigationMetrics.successful_deliveries (metrics e)) as (H1 & Hp1 & Hs1).
    { unfold counters_within, after_drone_update, observe. cbn -[Nat.ltb Nat.eqb].
      destruct (_ =? _)%nat, (_ <? _)%nat; lia. }
    destruct (auto_advance_inv _ _ Ha) as [-> | (_ & _ & Hn)]; [assumption|].
    destruct (counters_next_delivery _ _ Hn) as (Hp & Ho & Hc & Hs).
    unfold counters_within in *. cbn in *. lia.
Qed.

(** X9.  Between two resets the four counters never go down, and no
    event (a key, a click or a tick) raises any of them by more than one:
    after a run of [n] events without the R key each counter is at least
    what it was and at most [n] more. *)
Theorem counters_only_grow (e : UrbanEnvironment.t) (evs : list event)
    (e' : UrbanEnvironment.t) :
  Forall (fun ev => negb (is_key_r ev) = true) evs ->
  run e evs = Ok e' ->
  counters_within (length evs) e e'.
Proof.
  intros Hevs. revert e.
  induction Hevs as [|ev evs Hev _ IH]; intros e; cbn [run length].
  - intros [= <-]. now apply counters_within_refl.
  - destruct (step e ev) as [e1|] eqn:Hs; cbn [mbind result_bind]; [|done].
    intros Hrun.
    apply (counters_within_trans 1 (length evs) e e1 e').
    + now apply (counters_step e ev).
    + now apply IH.
Qed.

Lemma counters_only_grow_witness :
  exists e',
    run (new []) [Tick 0; Tick 0; KeyN; Click (50, 50)%float; Tick 0] = Ok e' /\
    counters_within 5 (new []) e'.
Proof.
  eexists. split; [vm_compute; reflexivity|].
  apply (counters_only_grow (new [])
           [Tick 0; Tick 0; KeyN; Click (50, 50)%float; Tick 0]).
  - repeat constructor.
  - vm_compute. reflexivity.
Defined.

(** X10.  A tick that leaves a trail of exactly one point counts an
    avoided obstacle although no point was tested: the filter returns on
    the short trail, the filtered trail stays empty, and the counter
    compares the two lengths, 1 and 0. *)
Theorem one_point_trail_counts_an_obstacle (e : UrbanEnvironment.t)
    (processing_time : float) (e' : UrbanEnvironment.t) :
  consistent e -> is_paused e = false ->
  update e processing_time = Ok e' ->
  length (Drone.path (drone e')) = 1 ->
  Drone.clipped_path (drone e') = [] /\
  NavigationMetrics.obstacles_avoided (metrics e')
    = NavigationMetrics.obstacles_avoided (metrics e) + 1 /\
  NavigationMetrics.paths_clipped (metrics e')
    = NavigationMetrics.paths_clipped (metrics e).
Proof.
  intros [Hs Hl Hc Hi] Hp Hu Hone.
  destruct (update_inv e e' processing_time Hu) as [[Hp' _] | (_ & d & Hd & Ha)];
    [congruence|].
  set (e1 := after_drone_update e d processing_time) in *.
  assert (Drone.path (drone e') = Drone.path d /\
          Drone.clipped_path (drone e') = Drone.clipped_path (drone e1) /\
          NavigationMetrics.obstacles_avoided (metrics e')
            = NavigationMetrics.obstacles_avoided (metrics e1) /\
          NavigationMetrics.paths_clipped (metrics e')
            = NavigationMetrics.paths_clipped (metrics e1)) as (Hpath & Hclip & Hoa & Hpc).
  { assert (Drone.path (drone e1) = Drone.path d) as Hp1.
    { unfold e1, after_drone_update. now rewrite clip_path_to_obstacles_spec. }
    destruct (auto_advance_inv _ _ Ha) as [-> | (_ & _ & Hn)]; [auto|].
    destruct (next_delivery_keeps _ _ Hn)
      as (_ & _ & _ & _ & _ & _ & _ & _ & Hpa & Hcl & _ & Ho & Hc').
    repeat split; congruence. }
  rewrite Hpath in Hone.
  assert (Drone.clipped_path d = []) as Hd0.
  { assert (Drone.clipped_path d = Drone.clipped_path (drone e) /\
            length (Drone.path (drone e)) < 2) as [-> Hshort].
    { destruct (drone_update_cases _ _ Hd)
        as [[Hm ->] | [[Hm ->] | (Hm & Hadv & _ & _ & _ & _ & Hcl & _)]].
      - split; [reflexivity | lia].
      - split; [reflexivity | cbn in *; lia].
      - split; [assumption|].
        rewrite (advance_path _ _ Hadv), record_length in Hone by assumption. lia. }
    rewrite Hc. unfold filtered. apply Nat.ltb_lt in Hshort. now rewrite Hshort. }
  assert (Drone.clip_path_to_obstacles d (buildings e) (no_fly_zones e) = d) as Hsame.
  { unfold Drone.clip_path_to_obstacles. now rewrite Hone. }
  rewrite Hclip, Hoa, Hpc. unfold e1, after_drone_update. rewrite Hsame.
  cbn [drone metrics observe NavigationMetrics.obstacles_avoided
       NavigationMetrics.paths_clipped].
  rewrite Hd0, Hone. cbn. auto.
Qed.

Lemma one_point_trail_counts_an_obstacle_witness :
  exists e1 e2,
    run (new []) [Tick 0] = Ok e1 /\
    update e1 0 = Ok e2 /\
    Drone.path (drone e2) = [(103, 100)%float] /\
    in_obstacle (buildings e2) (no_fly_zones e2) 103 100 = false /\
    Drone.clipped_path (drone e2) = [] /\
    NavigationMetrics.obstacles_avoided (metrics e2) = 1 /\
    NavigationMetrics.paths_clipped (metrics e2) = 0.
Proof.
  destruct (run_ok [Tick 0] (new []) (new_consistent [])) as (e1 & Hrun & He1).
  destruct (env_update_ok e1 0 He1) as (e2 & Hu & _).
  exists e1, e2. split; [exact Hrun|]. split; [exact Hu|].
  vm_compute in Hrun. injection Hrun as <-.
  pose proof Hu as Hu'. vm_compute in Hu'. injection Hu' as <-.
  split; [reflexivity|]. split; [reflexivity|].
  apply (one_point_trail_counts_an_obstacle _ 0 _ He1 eq_refl Hu eq_refl).
Defined.

(** *** More on the trail filter *)

Lemma filter_all_safe (buildings : list Building.t) (no_fly_zones : list NoFlyZone.t)
    (l : list point) :
  Forall (safe buildings no_fly_zones) l -> filter (safe buildings no_fly_zones) l = l.
Proof.
  induction 1 as [|p l Hp _ IH]; [reflexivity|].
  rewrite filter_cons_True by assumption. now rewrite IH.
Qed.

Lemma safe_fewer_obstacles (bs bs' : list Building.t) (zs zs' : list NoFlyZone.t)
    (p : point) :
  safe (bs ++ bs') (zs ++ zs') p -> safe bs zs p.
Proof.
  unfold safe, in_obstacle. rewrite !existsb_app.
  intros H. repeat (apply orb_false_elim in H as [H ?] || apply orb_false_elim in H as [? H]).
  destruct (existsb _ bs), (existsb _ zs); try discriminate; reflexivity.
Qed.

Lemma filter_sublist_impl {A : Type} (P Q : A -> Prop)
    `{forall x, Decision (P x)} `{forall x, Decision (Q x)} (l : list A) :
  (forall x, P x -> Q x) -> filter P l `sublist_of` filter Q l.
Proof.
  intros HPQ. induction l as [|x l IH]; [reflexivity|].
  rewrite !filter_cons.
  destruct (decide (P x)) as [Hp|Hp], (decide (Q x)) as [Hq|Hq].
  - now apply sublist_skip.
  - destruct (Hq (HPQ x Hp)).
  - now apply sublist_cons.
  - assumption.
Qed.

(** X11.  With no building and no no-fly zone the filter keeps the whole
    trail, once it has two points: the filtered trail is the trail. *)
Theorem clip_without_obstacles (d : Drone.t) :
  2 ≤ length (Drone.path d) ->
  Drone.clipped_path (Drone.clip_path_to_obstacles d [] []) = Drone.path d.
Proof.
  intros Hl. rewrite clip_path_to_obstacles_spec. cbn [Drone.clipped_path Drone.set_clipped_path].
  destruct (Nat.ltb_spec (length (Drone.path d)) 2); [lia|].
  apply filter_all_safe, Forall_forall. intros p _. reflexivity.
Qed.

Lemma clip_without_obstacles_witness :
  let d := Drone.Build 9 0 30 0 3 8 [(3, 0); (6, 0); (9, 0)]%float [] true 100 true in
  Drone.clipped_path (Drone.clip_path_to_obstacles d [] []) = [(3, 0); (6, 0); (9, 0)]%float.
Proof.
  apply (clip_without_obstacles
           (Drone.Build 9 0 30 0 3 8 [(3, 0); (6, 0); (9, 0)]%float [] true 100 true)).
  cbn. lia.
Defined.

(** X12.  More obstacles never put a point back: whatever the filter
    stores against a larger registry is a subsequence of what it stores,
    for the same drone, against a smaller one. *)
Theorem clip_antitone (d : Drone.t) (bs bs' : list Building.t)
    (zs zs' : list NoFlyZone.t) :
  Drone.clipped_path (Drone.clip_path_to_obstacles d (bs ++ bs') (zs ++ zs'))
  `sublist_of` Drone.clipped_path (Drone.clip_path_to_obstacles d bs zs).
Proof.
  rewrite !clip_path_to_obstacles_spec.
  cbn [Drone.clipped_path Drone.set_clipped_path].
  destruct (length (Drone.path d) <? 2)%nat; [reflexivity|].
  apply filter_sublist_impl. intros p. apply safe_fewer_obstacles.
Qed.

(** X13.  A blocked point between two safe stretches of the trail is
    dropped and the stretches are joined end to end, with no mark where
    the point was. *)
Theorem clip_joins_runs (d : Drone.t) (buildings : list Building.t)
    (no_fly_zones : list NoFlyZone.t) (before after : list point) (p : point) :
  Drone.path d = before ++ p :: after ->
  1 ≤ length before + length after ->
  Forall (safe buildings no_fly_zones) before ->
  in_obstacle buildings no_fly_zones (fst p) (snd p) = true ->
  Forall (safe buildings no_fly_zones) after ->
  Drone.clipped_path (Drone.clip_path_to_obstacles d buildings no_fly_zones)
  = before ++ after.
Proof.
  intros Hpath Hlen Hb Hp Ha.
  rewrite clip_path_to_obstacles_spec.
  cbn [Drone.clipped_path Drone.set_clipped_path]. rewrite Hpath.
  destruct (Nat.ltb_spec (length (before ++ p :: after)) 2) as [H|_].
  { rewrite length_app in H. cbn in H. lia. }
  rewrite filter_app, filter_cons_False, !filter_all_safe by
    (assumption || (unfold safe; rewrite Hp; discriminate)).
  reflexivity.
Qed.

Lemma clip_joins_runs_witness :
  let d := Drone.Build 22 0 30 0 3 8 [(5, 0); (12, 0); (22, 0)]%float [] true 100 true in
  Drone.clipped_path (Drone.clip_path_to_obstacles d [Building.new 10 (-5) 10 10] [])
  = [(5, 0); (22, 0)]%float.
Proof.
  apply (clip_joins_runs
           (Drone.Build 22 0 30 0 3 8 [(5, 0); (12, 0); (22, 0)]%float [] true 100 true)
           [Building.new 10 (-5) 10 10] [] [(5, 0)%float] [(22, 0)%float] (12, 0)%float).
  - reflexivity.
  - cbn. lia.
  - repeat constructor.
  - reflexivity.
  - repeat constructor.
Defined.

(** *** Battery and rest *)

(** X14.  The battery level steers nothing: a drone with any other level,
    empty or negative, makes the same move, reaches the same state but
    for the level, and raises in the same cases.  A flat battery never
    stops the drone. *)
Theorem battery_never_stops_the_drone (d : Drone.t) (b : float) :
  (fun d' => with_battery d' 0) <$> Drone.update (with_battery d b)
  = (fun d' => with_battery d' 0) <$> Drone.update d.
Proof.
  destruct d as [x y tx ty sp sz path clipped moving battery carrying].
  unfold Drone.update. cbn [with_battery Drone.is_moving Drone.speed].
  destruct moving; cbn [negb]; [|reflexivity].
  change (Drone.distance (with_battery _ b)) with
    (Drone.distance (Drone.Build x y tx ty sp sz path clipped true battery carrying)).
  destruct (sp <? _)%float; [|reflexivity].
  unfold Drone.advance, py_div.
  change (Drone.distance (with_battery _ b)) with
    (Drone.distance (Drone.Build x y tx ty sp sz path clipped true battery carrying)).
  destruct (_ =? 0)%float; reflexivity.
Qed.

Lemma stays_idle (n : nat) (d : Drone.t) :
  Drone.is_moving d = false -> drone_ticks n d = Ok d.
Proof.
  intros Hm. induction n as [|n IH]; cbn [drone_ticks]; [reflexivity|].
  unfold Drone.update. rewrite Hm. cbn [negb mbind result_bind]. exact IH.
Qed.

(** X15.  A moving drone whose target is within one step (the distance
    is not above the speed) arrives on the next update and then rests:
    after any number of further updates it is still exactly on the
    target, idle, with the battery and the trail it arrived with. *)
Theorem arrived_drone_rests (d : Drone.t) (n : nat) :
  Drone.is_moving d = true ->
  (Drone.speed d <? Drone.distance d)%float = false ->
  drone_ticks (S n) d = Ok (Drone.arrive d) /\
  (Drone.x (Drone.arrive d), Drone.y (Drone.arrive d))
    = (Drone.target_x d, Drone.target_y d) /\
  Drone.is_moving (Drone.arrive d) = false /\
  Drone.battery (Drone.arrive d) = Drone.battery d /\
  Drone.path (Drone.arrive d) = Drone.path d.
Proof.
  intros Hm Hd. split; [|repeat split].
  cbn [drone_ticks]. unfold Drone.update at 1. rewrite Hm, Hd.
  cbn [negb mbind result_bind]. now apply stays_idle.
Qed.

Lemma arrived_drone_rests_witness :
  let d := Drone.set_target (Drone.new (100, 100)%float) 102 101 in
  drone_ticks 50 d = Ok (Drone.arrive d) /\
  (Drone.x (Drone.arrive d), Drone.y (Drone.arrive d))
    = (Drone.target_x d, Drone.target_y d) /\
  Drone.is_moving (Drone.arrive d) = false /\
  Drone.battery (Drone.arrive d) = Drone.battery d /\
  Drone.path (Drone.arrive d) = Drone.path d.
Proof.
  apply (arrived_drone_rests
           (Drone.set_target (Drone.new (100, 100)%float) 102 101) 49);
    reflexivity.
Defined.

(** *** No-fly zones *)

Lemma sqrt_not_negative (v : float) : ~ negative (Prim2SF (sqrt v)).
Proof.
  rewrite sqrt_spec. unfold SF64sqrt, SFsqrt.
  destruct (Prim2SF v) as [[]|[]| |[] m e]; cbn [negative]; try tauto.
  destruct (SFsqrt_core_binary prec emax (Z.pos m) e) as [[mz ez] lz].
  unfold binary_round_aux.
  destruct (shr_fexp prec emax mz ez lz) as [mrs' e'].
  destruct (shr_fexp prec emax _ e' loc_Exact) as [mrs'' e''].
  destruct (shr_m mrs''); [tauto | | tauto].
  destruct (_ <=? _)%Z; cbn; tauto.
Qed.

Lemma below_negative_is_negative (u r : float) :
  (u <=? r)%float = true -> (r <? 0)%float = true -> negative (Prim2SF u).
Proof.
  rewrite leb_spec, ltb_spec.
  change (Prim2SF 0) with (S754_zero false).
  destruct (Prim2SF u) as [su|su| |su mu eu], (Prim2SF r) as [sr|sr| |sr mr er];
    try destruct su; try destruct sr; cbn; try congruence; tauto.
Qed.

(** X16.  A no-fly zone with a negative radius contains no point: where
    line 62 returns, that is where neither square overflows, the distance
    to the centre is a square root, never below zero. *)
Theorem negative_radius_zone_is_empty (z : NoFlyZone.t) (x y : float) :
  squares (x - fst (NoFlyZone.center z)) ->
  squares (y - snd (NoFlyZone.center z)) ->
  (NoFlyZone.radius z <? 0)%float = true ->
  NoFlyZone.contains_point z x y = false.
Proof.
  intros _ _ Hr. unfold NoFlyZone.contains_point.
  destruct (_ <=? _)%float eqn:Hle; [|reflexivity].
  destruct (sqrt_not_negative _ (below_negative_is_negative _ _ Hle Hr)).
Qed.

Lemma negative_radius_zone_is_empty_witness :
  NoFlyZone.contains_point (NoFlyZone.Build (400, 300)%float (-80)) 430 340 = false.
Proof.
  apply (negative_radius_zone_is_empty (NoFlyZone.Build (400, 300)%float (-80)) 430 340).
  - intros _. reflexivity.
  - intros _. reflexivity.
  - reflexivity.
Defined.

(** *** The trail as a queue *)

Lemma record_drop (trail : list point) (p : point) :
  length trail ≤ 100 ->
  Drone.record trail p = drop (length trail + 1 - 100) (trail ++ [p]).
Proof.
  intros Hl. rewrite record_shape by assumption.
  destruct (Nat.ltb_spec (length trail) 100) as [H|H].
  - replace (length trail + 1 - 100) with 0 by lia. reflexivity.
  - replace (length trail + 1 - 100) with 1 by lia.
    destruct trail; [cbn in *; lia | reflexivity].
Qed.

(** X17.  The trail is a queue of the latest positions: after [n]
    consecutive moving updates it holds, in order, the end of the old
    trail followed by the [n] positions visited, cut at the front to the
    last 100 points. *)
Theorem trail_keeps_latest_positions (n : nat) (d : Drone.t) :
  length (Drone.path d) ≤ 100 -> moves_for n d = true ->
  exists d',
    drone_ticks n d = Ok d' /\
    length (visited n d) = n /\
    Drone.path d'
    = drop (length (Drone.path d) + n - 100) (Drone.path d ++ visited n d).
Proof.
  revert d. induction n as [|n IH]; intros d Hl Hm.
  - exists d. cbn [drone_ticks visited]. rewrite app_nil_r.
    replace (length (Drone.path d) + 0 - 100) with 0 by lia. auto.
  - cbn [moves_for] in Hm.
    apply andb_prop in Hm as [Hm Hn]. apply andb_prop in Hm as [Hmov Hd].
    cbn [drone_ticks visited].
    destruct (Drone.update d) as [d1|] eqn:Hu; [|discriminate].
    cbn [mbind result_bind].
    assert (Drone.advance d = Ok d1) as Ha.
    { unfold Drone.update in Hu. now rewrite Hmov, Hd in Hu. }
    pose proof (advance_path d d1 Ha) as Hp.
    pose proof (record_length (Drone.path d) (Drone.x d1, Drone.y d1) Hl) as Hl1.
    rewrite <- Hp in Hl1.
    destruct (IH d1) as (d' & Hrun & Hlen & Hpath); [lia | assumption|].
    exists d'. split; [assumption|]. split; [cbn [length]; lia|].
    rewrite Hpath, Hl1, Hp, record_drop by assumption.
    rewrite <- drop_app_le by (rewrite length_app; cbn [length]; lia).
    rewrite drop_drop, <- app_assoc. cbn [app].
    f_equal. lia.
Qed.

Lemma trail_keeps_latest_positions_witness :
  let d := Drone.set_target (Drone.new (100, 100)%float) 1100 100 in
  exists d',
    drone_ticks 150 d = Ok d' /\
    length (visited 150 d) = 150 /\
    Drone.path d'
    = drop (length (Drone.path d) + 150 - 100) (Drone.path d ++ visited 150 d).
Proof.
  apply (trail_keeps_latest_positions 150
           (Drone.set_target (Drone.new (100, 100)%float) 1100 100)).
  - cbn. lia.
  - vm_compute. reflexivity.
Defined.

(** *** The centre of a zone *)

Lemma finite_sub_diag (v : float) :
  is_finite v = true -> signed_zero (Prim2SF (v - v)).
Proof.
  unfold is_finite, is_nan, is_infinity.
  rewrite !eqb_spec, abs_spec, sub_spec.
  change (Prim2SF infinity) with (S754_infinity false).
  destruct (Prim2SF v) as [sv|sv| |sv mv ev]; try destruct sv; cbn;
    try discriminate; try tauto.
  all: intros _; unfold SF64sub, SFsub; rewrite Z.sub_diag; exact I.
Qed.

Lemma sqrt_sum_squares_zero (u v : float) :
  signed_zero (Prim2SF u) -> signed_zero (Prim2SF v) ->
  signed_zero (Prim2SF (sqrt (sq u + sq v))).
Proof.
  unfold sq. rewrite sqrt_spec, add_spec, !mul_spec.
  destruct (Prim2SF u) as [[]|[]| |], (Prim2SF v) as [[]|[]| |]; cbn; tauto.
Qed.

Lemma zero_below_non_negative (u r : float) :
  signed_zero (Prim2SF u) -> (0 <=? r)%float = true -> (u <=? r)%float = true.
Proof.
  rewrite !leb_spec.
  change (Prim2SF 0) with (S754_zero false).
  destruct (Prim2SF u) as [su|su| |su mu eu], (Prim2SF r) as [sr|sr| |sr mr er];
    try destruct sr; cbn; try congruence; tauto.
Qed.

(** X18.  A no-fly zone with a finite centre and a radius that is not
    negative contains its centre, so a click on the centre of a
    registered zone is always refused: the state stays as it was. *)
Theorem zone_contains_its_centre (z : NoFlyZone.t) :
  is_finite (fst (NoFlyZone.center z)) = true ->
  is_finite (snd (NoFlyZone.center z)) = true ->
  (0 <=? NoFlyZone.radius z)%float = true ->
  NoFlyZone.contains_point z (fst (NoFlyZone.center z)) (snd (NoFlyZone.center z)) = true /\
  forall e : UrbanEnvironment.t,
    z ∈ no_fly_zones e ->
    handle_click e (NoFlyZone.center z) = (e, PyNone).
Proof.
  intros Hx Hy Hr.
  assert (NoFlyZone.contains_point z (fst (NoFlyZone.center z))
            (snd (NoFlyZone.center z)) = true) as Hin.
  { unfold NoFlyZone.contains_point.
    apply zero_below_non_negative; [|assumption].
    apply sqrt_sum_squares_zero; now apply finite_sub_diag. }
  split; [assumption|]. intros e Hz.
  destruct (NoFlyZone.center z) as [cx cy] eqn:Hc. cbn [fst snd] in Hin.
  rewrite handle_click_cases.
  assert (in_obstacle (buildings e) (no_fly_zones e) cx cy = true) as ->; [|reflexivity].
  unfold in_obstacle. apply orb_true_iff. right.
  apply existsb_exists. exists z. split; [now apply list_elem_of_In | assumption].
Qed.

Lemma zone_contains_its_centre_witness :
  let z := NoFlyZone.Build (700, 500)%float 60 in
  NoFlyZone.contains_point z 700 500 = true /\
  forall e : UrbanEnvironment.t,
    z ∈ no_fly_zones e -> handle_click e (700, 500)%float = (e, PyNone).
Proof.
  apply (zone_contains_its_centre (NoFlyZone.Build (700, 500)%float 60));
    reflexivity.
Defined.
